(** * LinkedIn MCP server: the JSON-RPC dispatcher and its tool handlers

    The repository holds two implementations of the same protocol:

    - [MCPServer] (src/public/mcpServer.js): the class with the tool
      registry, the guarded [handleToolsCall] and the four mock executors;
    - [ServiceWorker] (the service worker script): [handleMCPRequest], the
      only place where a decoded request is routed by method and the request
      id is echoed, together with the simplified server object returned by
      [createMCPServerInstance].

    Both are embedded here over a small model of the JavaScript values they
    manipulate: the values [JSON.parse] can produce, [undefined], and the
    numbers it cannot (NaN).  A number is an integer printed in plain decimal
    ([VNum], magnitude below 10^21) or any other number ([VReal]), carried as
    what the handlers can observe of it: its integer part and its string
    form.  A string is the byte string of its UTF-8 encoding; on ASCII
    strings case mapping, the [\s] class and numeric literals are computed
    here, and beyond them they are the engine's, like the clock and the
    wording of its error messages ([Host]).  The shell of the service worker
    (fetch routing, CORS headers, cache clean-up, static assets) is modelled
    over the cache and the network taken as parameters. *)

From Stdlib Require Import ZArith List String Ascii Bool Lia.
From Stdlib Require Import DecimalString DecimalPos DecimalZ FinFun.
Import ListNotations.
Local Open Scope string_scope.
Local Open Scope Z_scope.

(** ** The fragment of JavaScript used by the server *)

Module JS.

(** A number as the search loop compares it with its integer counter: its
    integer part (the greatest integer not above it), an infinity, or NaN. *)
Inductive num : Type :=
| Fin (n : Z)
| NaN
| PosInf
| NegInf.

(** Values.  An object is the list of its own properties in enumeration
    order; its prototype is always [Object.prototype].  [VNum n] is the
    integer [n], of magnitude below 10^21, which prints in plain decimal.
    [VReal] is any other number: a non-integer, an integer from 10^21 on, an
    infinity or NaN; [shown] is the string JavaScript prints for it. *)
#[local] Unset Elimination Schemes.
Inductive value : Type :=
| VUndefined
| VNull
| VBool (b : bool)
| VNum (n : Z)
| VReal (integer_part : num) (shown : string)
| VStr (s : string)
| VArr (elems : list value)
| VObj (props : list (string * value)).
#[local] Set Elimination Schemes.

(** What a [TypeError] complains about; the text of its [message] is chosen
    by the engine. *)
Inductive TypeErrorKind : Type :=
| CannotConvertToPrimitive
| NotAFunction (callee : string)
| CannotReadProperty (receiver : value) (key : string).

(** Thrown values: every [throw] reachable from the handlers raises an
    [Error] or one of its built-in subclasses. *)
Inductive exn : Type :=
| Error (message : string)
| TypeError (kind : TypeErrorKind)
| SyntaxError (message : string).

(** What the host supplies: the two clock reads, the engine's wording of a
    [TypeError], and its treatment of the strings that are not plain ASCII:
    [String.prototype.toLowerCase], [s.replace(/\s+/g, '-')], and the
    integer part of the number a string converts to. *)
Record Host : Type := {
  Date_now : Z;
  Date_toISOString : string;
  TypeError_message : TypeErrorKind -> string;
  Unicode_toLowerCase : string -> string;
  Unicode_replace_spaces : string -> string;
  String_toNumber : string -> num
}.

Definition message (h : Host) (e : exn) : string :=
  match e with
  | Error m => m
  | TypeError k => TypeError_message h k
  | SyntaxError m => m
  end.

(** Completions: a computation returns normally or throws. *)
Inductive completion (A : Type) : Type :=
| Normal (a : A)
| Throw (e : exn).
Arguments Normal {A} a.
Arguments Throw {A} e.

Definition bind {A B} (c : completion A) (k : A -> completion B) : completion B :=
  match c with
  | Normal a => k a
  | Throw e => Throw e
  end.

Notation "x <- c ;; k" := (bind c (fun x => k))
  (at level 61, c at next level, right associativity).

(** [try { body } catch (error) { handler }] *)
Definition try_catch {A} (body : completion A) (handler : exn -> A) : A :=
  match body with
  | Normal a => a
  | Throw e => handler e
  end.

(** *** Truthiness, strict equality, [||] *)

Definition truthy (v : value) : bool :=
  match v with
  | VUndefined | VNull => false
  | VBool b => b
  | VNum n => negb (n =? 0)
  | VReal NaN _ => false
  | VReal _ _ => true
  | VStr s => negb (s =? "")%string
  | VArr _ | VObj _ => true
  end.

(** [a || b] *)
Definition or_else (a b : value) : value := if truthy a then a else b.

(** [v === "literal"]: only the string itself is strictly equal to a string. *)
Definition strict_eq_str (v : value) (lit : string) : bool :=
  match v with
  | VStr s => (s =? lit)%string
  | _ => false
  end.

(** *** Own properties *)

Fixpoint lookup (k : string) (props : list (string * value)) : option value :=
  match props with
  | [] => None
  | (k', v) :: rest => if (k' =? k)%string then Some v else lookup k rest
  end.

(** [v.k] as a total reading of a response: the own property, else
    [undefined]. *)
Definition field (k : string) (v : value) : value :=
  match v with
  | VObj props => match lookup k props with Some x => x | None => VUndefined end
  | _ => VUndefined
  end.

Definition has_field (k : string) (v : value) : bool :=
  match v with
  | VObj props => match lookup k props with Some _ => true | None => false end
  | _ => false
  end.

(** [v.k] as the handlers evaluate it.  Reading a property of [null] or
    [undefined] throws; on every other receiver the property names the
    handlers read (method, params, id, name, arguments, text, visibility,
    query, limit, role) are defined on no built-in prototype, so only own
    properties of objects can answer. *)
Definition Get (v : value) (k : string) : completion value :=
  match v with
  | VUndefined | VNull => Throw (TypeError (CannotReadProperty v k))
  | _ => Normal (field k v)
  end.

(** [o.k = v] on an ordinary object: overwrite in place or append. *)
Fixpoint set_prop (k : string) (v : value) (props : list (string * value))
  : list (string * value) :=
  match props with
  | [] => [(k, v)]
  | (k', v') :: rest =>
      if (k' =? k)%string then (k, v) :: rest else (k', v') :: set_prop k v rest
  end.

Definition Set_ (o : value) (k : string) (v : value) : value :=
  match o with
  | VObj props => VObj (set_prop k v props)
  | _ => o
  end.

Definition Object_keys (o : value) : list value :=
  match o with
  | VObj props => map (fun kv => VStr (fst kv)) props
  | _ => []
  end.

Definition Object_values (o : value) : list value :=
  match o with
  | VObj props => map snd props
  | _ => []
  end.

(** Names every ordinary object inherits from [Object.prototype]
    (ECMA-262, sections 20.1.3 and B.2.2); each resolves to a function or,
    for [__proto__], to the prototype object: all truthy. *)
Definition Object_prototype_keys : list string :=
  [ "constructor"; "hasOwnProperty"; "isPrototypeOf"; "propertyIsEnumerable";
    "toLocaleString"; "toString"; "valueOf"; "__proto__";
    "__defineGetter__"; "__defineSetter__"; "__lookupGetter__";
    "__lookupSetter__" ].

Definition mem_string (s : string) (l : list string) : bool :=
  existsb (fun x => (x =? s)%string) l.

(** *** Strings *)

Definition Z_to_string (n : Z) : string :=
  NilZero.string_of_int (Z.to_int n).

Fixpoint join (sep : string) (parts : list string) : string :=
  match parts with
  | [] => ""
  | [p] => p
  | p :: rest => p ++ sep ++ join sep rest
  end.

(** [ToString] (ECMA-262, 7.1.17).  An object is converted through
    [OrdinaryToPrimitive]: the inherited [valueOf] returns the object itself,
    so the result is that of [toString]; an own [toString] property of a
    parsed object is never callable, which leaves no method to call and
    raises a [TypeError].  An array goes through [Array.prototype.join]. *)
Fixpoint ToString (v : value) : completion string :=
  match v with
  | VUndefined => Normal "undefined"
  | VNull => Normal "null"
  | VBool true => Normal "true"
  | VBool false => Normal "false"
  | VNum n => Normal (Z_to_string n)
  | VReal _ shown => Normal shown
  | VStr s => Normal s
  | VArr elems =>
      ss <- (fix items (l : list value) : completion (list string) :=
               match l with
               | [] => Normal []
               | e :: rest =>
                   s <- match e with
                        | VUndefined | VNull => Normal ""
                        | _ => ToString e
                        end ;;
                   ss <- items rest ;;
                   Normal (s :: ss)
               end) elems ;;
      Normal (join "," ss)
  | VObj props =>
      match lookup "toString" props with
      | Some _ => Throw (TypeError CannotConvertToPrimitive)
      | None => Normal "[object Object]"
      end
  end.

Definition code (c : ascii) : N := N_of_ascii c.

(** The ASCII members of [WhiteSpace] and [LineTerminator]: what [\s]
    matches and what numeric conversion trims in an ASCII string. *)
Definition is_space (c : ascii) : bool :=
  let n := code c in
  ((9 <=? n) && (n <=? 13) || (n =? 32))%N.

Definition is_digit (c : ascii) : bool :=
  let n := code c in ((48 <=? n) && (n <=? 57))%N.

(** The lower-case form of an ASCII character. *)
Definition lower (c : ascii) : ascii :=
  let n := code c in
  if ((65 <=? n) && (n <=? 90))%N then ascii_of_N (n + 32) else c.

(** A string of ASCII characters only. *)
Fixpoint is_ascii (s : string) : bool :=
  match s with
  | EmptyString => true
  | String c rest => (code c <? 128)%N && is_ascii rest
  end.

(** [String.prototype.toLowerCase] on an ASCII string: the letters A to Z
    are mapped, one by one. *)
Fixpoint ascii_toLowerCase (s : string) : string :=
  match s with
  | EmptyString => EmptyString
  | String c rest => String (lower c) (ascii_toLowerCase rest)
  end.

(** [s.replace(/\s+/g, '-')] on an ASCII string: every maximal run of white
    space becomes one dash; [in_run] tells that the previous character was
    white space. *)
Fixpoint ascii_replace_spaces (in_run : bool) (s : string) : string :=
  match s with
  | EmptyString => EmptyString
  | String c rest =>
      if is_space c
      then (if in_run then ascii_replace_spaces true rest
            else String "-" (ascii_replace_spaces true rest))
      else String c (ascii_replace_spaces false rest)
  end.

(** [s.toLowerCase()] *)
Definition toLowerCase (h : Host) (s : string) : string :=
  if is_ascii s then ascii_toLowerCase s else Unicode_toLowerCase h s.

(** [s.replace(/\s+/g, '-')] *)
Definition replace_spaces (h : Host) (s : string) : string :=
  if is_ascii s then ascii_replace_spaces false s else Unicode_replace_spaces h s.

(** [hay.includes(needle)] *)
Fixpoint includes (hay needle : string) : bool :=
  prefix needle hay ||
  match hay with
  | EmptyString => false
  | String _ rest => includes rest needle
  end.

(** *** Numbers *)

Fixpoint trim_start (s : string) : string :=
  match s with
  | EmptyString => EmptyString
  | String c rest => if is_space c then trim_start rest else s
  end.

Fixpoint reverse (acc s : string) : string :=
  match s with
  | EmptyString => acc
  | String c rest => reverse (String c acc) rest
  end.

Definition trim (s : string) : string :=
  reverse "" (trim_start (reverse "" (trim_start s))).

Fixpoint digits_value (acc : Z) (s : string) : option Z :=
  match s with
  | EmptyString => Some acc
  | String c rest =>
      if is_digit c
      then digits_value (10 * acc + Z.of_N (code c - 48)) rest
      else None
  end.

Definition unsigned_literal (s : string) : option num :=
  if (s =? "Infinity")%string then Some PosInf
  else match s with
       | EmptyString => None
       | _ => option_map Fin (digits_value 0 s)
       end.

Definition negate (x : num) : num :=
  match x with
  | Fin n => Fin (- n)
  | NaN => NaN
  | PosInf => NegInf
  | NegInf => PosInf
  end.

(** The ASCII literals converted here: the empty string (0), a sign and
    [Infinity], a sign and at most fifteen decimal digits (which every
    number holds exactly). *)
Definition simple_literal (s : string) : option num :=
  let short (t : string) :=
    if (String.length t <=? 15)%nat then unsigned_literal t else None in
  match trim s with
  | EmptyString => Some (Fin 0)
  | String "+" rest => short rest
  | String "-" rest => option_map negate (short rest)
  | t => short t
  end.

(** [StringToNumber] (ECMA-262, 7.1.4.1.1), as an integer part.  Every
    other string (a longer, radix prefixed, fractional or exponent literal,
    white space beyond ASCII, or no literal at all) is converted by the
    engine. *)
Definition StringToNumber (h : Host) (s : string) : num :=
  if is_ascii s
  then match simple_literal s with
       | Some x => x
       | None => String_toNumber h s
       end
  else String_toNumber h s.

(** [ToNumber] (ECMA-262, 7.1.4), as an integer part; objects and arrays
    go through their primitive (string) value. *)
Definition ToNumber (h : Host) (v : value) : completion num :=
  match v with
  | VUndefined => Normal NaN
  | VNull => Normal (Fin 0)
  | VBool b => Normal (Fin (if b then 1 else 0))
  | VNum n => Normal (Fin n)
  | VReal x _ => Normal x
  | VStr s => Normal (StringToNumber h s)
  | VArr _ | VObj _ => s <- ToString v ;; Normal (StringToNumber h s)
  end.

Definition num_min (a b : num) : num :=
  match a, b with
  | NaN, _ | _, NaN => NaN
  | NegInf, _ | _, NegInf => NegInf
  | PosInf, x | x, PosInf => x
  | Fin x, Fin y => Fin (Z.min x y)
  end.

(** [Math.min(a, b)], as an integer part: both arguments are coerced, left
    to right. *)
Definition Math_min (h : Host) (a b : value) : completion num :=
  x <- ToNumber h a ;;
  y <- ToNumber h b ;;
  Normal (num_min x y).

(** [i <= m] for an integer [i] *)
Definition le_num (i : Z) (m : num) : bool :=
  match m with
  | Fin n => i <=? n
  | PosInf => true
  | NaN | NegInf => false
  end.

(** [Math.pow(10, i)] for the indices the search loop reaches, 1 to 6 *)
Definition Math_pow10 (i : Z) : Z := 10 ^ i.

(** *** JSON.stringify(value, null, 2) *)

Definition newline : string := String (ascii_of_N 10) EmptyString.

(** The double quote character, as a string. *)
Definition dquote : string := String (ascii_of_N 34) EmptyString.

Definition hex_digit (n : N) : ascii :=
  if (n <? 10)%N then ascii_of_N (48 + n) else ascii_of_N (87 + n).

(** One code unit of [QuoteJSONString] (ECMA-262, 25.5.2.3). *)
Definition quote_char (c : ascii) : string :=
  let n := code c in
  if (n =? 34)%N then "\" ++ dquote
  else if (n =? 92)%N then "\\"
  else if (n =? 8)%N then "\b"
  else if (n =? 12)%N then "\f"
  else if (n =? 10)%N then "\n"
  else if (n =? 13)%N then "\r"
  else if (n =? 9)%N then "\t"
  else if (n <? 32)%N
       then "\u00" ++ String (hex_digit (n / 16)) (String (hex_digit (n mod 16)) "")
       else String c "".

Fixpoint quote_chars (s : string) : string :=
  match s with
  | EmptyString => EmptyString
  | String c rest => quote_char c ++ quote_chars rest
  end.

Definition QuoteJSONString (s : string) : string :=
  dquote ++ quote_chars s ++ dquote.

Definition gap : string := "  ".

(** Brackets around the serialized members, one per line at [inner]
    indentation; no members gives the bare pair. *)
Definition wrap (opening closing outer inner : string) (members : list string)
  : string :=
  match members with
  | [] => opening ++ closing
  | _ => opening ++ newline ++ inner
         ++ join ("," ++ newline ++ inner) members
         ++ newline ++ outer ++ closing
  end.

(** [SerializeJSONProperty] (ECMA-262, 25.5.2.2) with the two-space gap;
    [None] stands for [undefined].  Parsed values carry no callable
    [toJSON]; a number that is not finite prints as [null].  A property whose value is [undefined] is left out of an
    object and printed as [null] in an array. *)
Fixpoint SerializeJSONProperty (indent : string) (v : value) : option string :=
  match v with
  | VUndefined => None
  | VNull => Some "null"
  | VBool true => Some "true"
  | VBool false => Some "false"
  | VNum n => Some (Z_to_string n)
  | VReal (Fin _) shown => Some shown
  | VReal _ _ => Some "null"
  | VStr s => Some (QuoteJSONString s)
  | VArr elems =>
      let inner := indent ++ gap in
      Some (wrap "[" "]" indent inner
              (map (fun e => match SerializeJSONProperty inner e with
                             | Some s => s
                             | None => "null"
                             end) elems))
  | VObj props =>
      let inner := indent ++ gap in
      Some (wrap "{" "}" indent inner
              ((fix members (l : list (string * value)) : list string :=
                  match l with
                  | [] => []
                  | (k, x) :: rest =>
                      match SerializeJSONProperty inner x with
                      | Some s => (QuoteJSONString k ++ ": " ++ s) :: members rest
                      | None => members rest
                      end
                  end) props))
  end.

Definition JSON_stringify (v : value) : value :=
  match SerializeJSONProperty "" v with
  | Some s => VStr s
  | None => VUndefined
  end.

End JS.

Import JS.

(** Strict equality on the values the handlers compare.  Objects and arrays
    compare by identity, and a parsed object is never identical to a value
    built by a handler; NaN equals nothing. *)
Definition strict_eq (a b : value) : bool :=
  match a, b with
  | VUndefined, VUndefined => true
  | VNull, VNull => true
  | VBool x, VBool y => Bool.eqb x y
  | VNum x, VNum y => x =? y
  | VReal (Fin x) s, VReal (Fin y) t => (x =? y) && (s =? t)%string
  | VReal PosInf s, VReal PosInf t => (s =? t)%string
  | VReal NegInf s, VReal NegInf t => (s =? t)%string
  | VStr x, VStr y => (x =? y)%string
  | _, _ => false
  end.

(** A parameter default [f(x = d)]: taken when the argument is [undefined]. *)
Definition default_param (v d : value) : value :=
  match v with
  | VUndefined => d
  | _ => v
  end.

(** The case labels of [switch (toolName)], the same four in both
    implementations, and the case a tool name selects: a label matches by
    strict equality, anything else goes to [default]. *)
Inductive Tool : Type :=
| get_profile
| create_post
| search_organizations
| get_organizations.

Definition tool_of (toolName : value) : option Tool :=
  if strict_eq_str toolName "get_profile" then Some get_profile
  else if strict_eq_str toolName "create_post" then Some create_post
  else if strict_eq_str toolName "search_organizations" then Some search_organizations
  else if strict_eq_str toolName "get_organizations" then Some get_organizations
  else None.

Definition label (tool : Tool) : string :=
  match tool with
  | get_profile => "get_profile"
  | create_post => "create_post"
  | search_organizations => "search_organizations"
  | get_organizations => "get_organizations"
  end.

(** The three methods a server object offers to the request router. *)
Record ServerInstance : Type := {
  handleInitialize : value -> value;
  handleToolsList : value;
  handleToolsCall : value -> completion value
}.

(** ** The class [MCPServer] (src/public/mcpServer.js) *)

Module MCPServer.

Definition version : value := VStr "1.0.0".

Definition serverInfo : value :=
  VObj [ ("name", VStr "linkedin-mcp-server");
         ("version", version);
         ("protocol", VStr "MCP 1.0") ].

Definition initializeTools : value :=
  VObj
    [ ("get_profile",
       VObj [ ("name", VStr "get_profile");
              ("description",
               VStr "Get LinkedIn profile information for the current user");
              ("inputSchema",
               VObj [ ("type", VStr "object");
                      ("properties", VObj []);
                      ("required", VArr []) ]) ]);
      ("create_post",
       VObj [ ("name", VStr "create_post");
              ("description", VStr "Create a new LinkedIn post");
              ("inputSchema",
               VObj [ ("type", VStr "object");
                      ("properties",
                       VObj [ ("text",
                               VObj [ ("type", VStr "string");
                                      ("description",
                                       VStr "The text content of the post") ]);
                              ("visibility",
                               VObj [ ("type", VStr "string");
                                      ("description",
                                       VStr "Post visibility (PUBLIC or CONNECTIONS)");
                                      ("enum",
                                       VArr [VStr "PUBLIC"; VStr "CONNECTIONS"]);
                                      ("default", VStr "PUBLIC") ]) ]);
                      ("required", VArr [VStr "text"]) ]) ]);
      ("search_organizations",
       VObj [ ("name", VStr "search_organizations");
              ("description", VStr "Search for LinkedIn organizations");
              ("inputSchema",
               VObj [ ("type", VStr "object");
                      ("properties",
                       VObj [ ("query",
                               VObj [ ("type", VStr "string");
                                      ("description",
                                       VStr "Search query for organizations") ]);
                              ("limit",
                               VObj [ ("type", VStr "number");
                                      ("description",
                                       VStr "Maximum number of results to return");
                                      ("default", VNum 10);
                                      ("minimum", VNum 1);
                                      ("maximum", VNum 50) ]) ]);
                      ("required", VArr [VStr "query"]) ]) ]);
      ("get_organizations",
       VObj [ ("name", VStr "get_organizations");
              ("description", VStr "Get organizations the user has access to");
              ("inputSchema",
               VObj [ ("type", VStr "object");
                      ("properties",
                       VObj [ ("role",
                               VObj [ ("type", VStr "string");
                                      ("description",
                                       VStr "Filter by role (ADMINISTRATOR, MEMBER, etc.)");
                                      ("enum",
                                       VArr [ VStr "ADMINISTRATOR"; VStr "MEMBER";
                                              VStr "CONTRIBUTOR" ]) ]) ]);
                      ("required", VArr []) ]) ]) ].

(** [this.tools], set once by the constructor *)
Definition tools : value := initializeTools.

Definition handleToolsList : value :=
  VObj [ ("jsonrpc", VStr "2.0");
         ("result", VObj [ ("tools", VArr (Object_values tools)) ]) ].

Definition handleInitialize (params : value) : value :=
  VObj [ ("jsonrpc", VStr "2.0");
         ("result",
          VObj [ ("serverInfo", serverInfo);
                 ("capabilities",
                  VObj [ ("tools", VObj [ ("listChanged", VBool false) ]);
                         ("resources",
                          VObj [ ("subscribe", VBool false);
                                 ("listChanged", VBool false) ]) ]) ]) ].

(** *** The simulated LinkedIn calls *)

Definition getProfile : value :=
  let localized (s : string) := VObj [ ("localized", VObj [ ("en_US", VStr s) ]) ] in
  VObj [ ("status", VStr "demo");
         ("message",
          VStr "This is a demo response. Connect your LinkedIn app for real data.");
         ("data",
          VObj [ ("id", VStr "sample-user-id");
                 ("firstName", localized "Demo");
                 ("lastName", localized "User");
                 ("headline", localized "Professional using MCP Server");
                 ("industry", localized "Technology");
                 ("location", localized "San Francisco, CA");
                 ("profilePicture", VNull);
                 ("publicProfileUrl", VStr "https://linkedin.com/in/demo-user") ]) ].

Definition createPost (h : Host) (text visibility : value) : completion value :=
  let visibility := default_param visibility (VStr "PUBLIC") in
  shown <- ToString visibility ;;
  Normal
    (VObj [ ("status", VStr "success");
            ("message", VStr ("Post would be created with visibility: " ++ shown));
            ("data",
             VObj [ ("text", text);
                    ("id", VStr ("demo-post-" ++ Z_to_string (Date_now h)));
                    ("status", VStr "PUBLISHED");
                    ("visibility", visibility);
                    ("createdAt", VStr (Date_toISOString h));
                    ("author", VStr "demo-user-id") ]) ]).

Definition industries : list value :=
  [ VStr "Technology"; VStr "Finance"; VStr "Healthcare"; VStr "Education";
    VStr "Manufacturing" ].

Definition locations : list value :=
  [ VStr "San Francisco, CA"; VStr "New York, NY"; VStr "Seattle, WA";
    VStr "Austin, TX"; VStr "Boston, MA" ].

(** [array[i]]: out of range reads [undefined]. *)
Definition index (l : list value) (i : Z) : value :=
  if i <? 0 then VUndefined else nth (Z.to_nat i) l VUndefined.

(** [i % 5]: the remainder has the sign of [i]. *)
Definition remainder5 (i : Z) : Z := Z.rem i 5.

(** The record pushed by turn [i] of the loop, for a string [query]. *)
Definition organization_record (h : Host) (q : string) (i : Z) : value :=
  VObj [ ("id",
          VStr ("org-" ++ replace_spaces h (toLowerCase h q)
                ++ "-" ++ Z_to_string i));
         ("localizedName", VStr (q ++ " Organization " ++ Z_to_string i));
         ("industry", index industries (remainder5 i));
         ("employeeCountRange",
          VObj [ ("start", VNum (Math_pow10 i));
                 ("end", VNum (Math_pow10 (i + 1))) ]);
         ("location", index locations (remainder5 i)) ].

(** The argument of [mockResults.push].  [query.toLowerCase()] is the first
    thing it evaluates, and only a string has that method. *)
Definition organization (h : Host) (query : value) (i : Z) : completion value :=
  match query with
  | VStr q => Normal (organization_record h q i)
  | VUndefined | VNull =>
      Throw (TypeError (CannotReadProperty query "toLowerCase"))
  | _ => Throw (TypeError (NotAFunction "query.toLowerCase"))
  end.

(** [for (let i = ...; i <= m; i++) mockResults.push(...)], from the
    current [i]; [fuel] bounds the number of turns. *)
Fixpoint push_results (h : Host) (fuel : nat) (query : value) (m : num) (i : Z)
    (mockResults : list value) : completion (list value) :=
  match fuel with
  | O => Normal mockResults
  | S fuel' =>
      if le_num i m
      then org <- organization h query i ;;
           push_results h fuel' query m (i + 1) (mockResults ++ [org])
      else Normal mockResults
  end.

(** The loop bound [Math.min(limit, 5)] has the same value at every test and
    is at most 5, so five turns of fuel are never used up before the test
    fails (lemma [push_results_fuel]); the index runs from 1 to 5 at most. *)
Definition searchOrganizations (h : Host) (query limit : value)
  : completion value :=
  let limit := default_param limit (VNum 10) in
  m <- Math_min h limit (VNum 5) ;;
  mockResults <- push_results h 5 query m 1 [] ;;
  let length := VNum (Z.of_nat (List.length mockResults)) in
  Normal
    (VObj [ ("status", VStr "demo");
            ("message",
             VStr "Demo search results. Connect LinkedIn API for real data.");
            ("data",
             VObj [ ("elements", VArr mockResults);
                    ("paging",
                     VObj [ ("total", length); ("count", length);
                            ("start", VNum 0) ]) ]) ]).

Definition mockOrganizations : list value :=
  [ VObj [ ("organization", VStr "urn:li:organization:demo123");
           ("role", VStr "ADMINISTRATOR");
           ("state", VStr "APPROVED");
           ("organizationName", VStr "Demo Tech Corp") ];
    VObj [ ("organization", VStr "urn:li:organization:demo456");
           ("role", VStr "MEMBER");
           ("state", VStr "APPROVED");
           ("organizationName", VStr "Sample Innovations Inc") ] ].

Definition getOrganizations (role : value) : value :=
  let role := default_param role VNull in
  let filteredOrgs :=
    if truthy role
    then filter (fun org => strict_eq (field "role" org) role) mockOrganizations
    else mockOrganizations in
  VObj [ ("status", VStr "demo");
         ("message",
          VStr "Demo organization data. Connect LinkedIn API for real data.");
         ("data", VObj [ ("elements", VArr filteredOrgs) ]) ].

(** *** tools/call *)

(** [this.tools[toolName]] is truthy: the key is the string form of
    [toolName]; an own entry is a descriptor object, and a miss falls through
    to [Object.prototype]. *)
Definition registered (toolName : value) : completion bool :=
  key <- ToString toolName ;;
  Normal (truthy (field key tools) || mem_string key Object_prototype_keys).

(** The body of each [case] inside the [try] block. *)
Definition execute (h : Host) (tool : Tool) (arguments_ : value)
  : completion value :=
  match tool with
  | get_profile => Normal getProfile
  | create_post =>
      text <- Get arguments_ "text" ;;
      visibility <- Get arguments_ "visibility" ;;
      createPost h text (or_else visibility (VStr "PUBLIC"))
  | search_organizations =>
      query <- Get arguments_ "query" ;;
      limit <- Get arguments_ "limit" ;;
      searchOrganizations h query (or_else limit (VNum 10))
  | get_organizations =>
      role <- Get arguments_ "role" ;;
      Normal (getOrganizations role)
  end.

(** The [switch (toolName)] inside the [try] block. *)
Definition callTool (h : Host) (toolName arguments_ : value) : completion value :=
  match tool_of toolName with
  | Some tool => execute h tool arguments_
  | None =>
      name <- ToString toolName ;;
      Throw (Error ("Tool " ++ name ++ " not implemented"))
  end.

Definition content_envelope (result : value) : value :=
  VObj [ ("jsonrpc", VStr "2.0");
         ("result",
          VObj [ ("content",
                  VArr [ VObj [ ("type", VStr "text");
                                ("text", JSON_stringify result) ] ]) ]) ].

Definition unknown_tool_envelope (name : string) : value :=
  VObj [ ("jsonrpc", VStr "2.0");
         ("error",
          VObj [ ("code", VNum (-32602));
                 ("message", VStr ("Unknown tool: " ++ name));
                 ("data", VObj [ ("availableTools", VArr (Object_keys tools)) ]) ]) ].

Definition internal_error_envelope (h : Host) (error : exn)
    (toolName arguments_ : value) : value :=
  VObj [ ("jsonrpc", VStr "2.0");
         ("error",
          VObj [ ("code", VNum (-32603));
                 ("message", VStr ("Internal error: " ++ message h error));
                 ("data", VObj [ ("tool", toolName);
                                 ("arguments", arguments_) ]) ]) ].

(** [params.arguments || {}] *)
Definition arguments_of (params : value) : completion value :=
  a <- Get params "arguments" ;;
  Normal (or_else a (VObj [])).

Definition handleToolsCall (h : Host) (params : value) : completion value :=
  toolName <- Get params "name" ;;
  arguments_ <- arguments_of params ;;
  known <- registered toolName ;;
  if negb known then
    name <- ToString toolName ;;
    Normal (unknown_tool_envelope name)
  else
    Normal
      (try_catch
         (result <- callTool h toolName arguments_ ;;
          Normal (content_envelope result))
         (fun error => internal_error_envelope h error toolName arguments_)).

End MCPServer.

(** ** The service worker: request routing and its own server object *)

Module ServiceWorker.

(** What [createJSONResponse(data, status)] is given: the object that becomes
    the body, and the HTTP status. *)
Record Response : Type := {
  data : value;
  status : Z
}.

Definition createJSONResponse (data : value) (status : Z) : Response :=
  {| data := data; status := status |}.

Definition tools_list : list value :=
  [ VObj [ ("name", VStr "get_profile");
           ("description",
            VStr "Get LinkedIn profile information for the current user");
           ("inputSchema",
            VObj [ ("type", VStr "object");
                   ("properties", VObj []);
                   ("required", VArr []) ]) ];
    VObj [ ("name", VStr "create_post");
           ("description", VStr "Create a new LinkedIn post");
           ("inputSchema",
            VObj [ ("type", VStr "object");
                   ("properties",
                    VObj [ ("text",
                            VObj [ ("type", VStr "string");
                                   ("description",
                                    VStr "The text content of the post") ]);
                           ("visibility",
                            VObj [ ("type", VStr "string");
                                   ("description",
                                    VStr "Post visibility (PUBLIC or CONNECTIONS)");
                                   ("enum",
                                    VArr [VStr "PUBLIC"; VStr "CONNECTIONS"]);
                                   ("default", VStr "PUBLIC") ]) ]);
                   ("required", VArr [VStr "text"]) ]) ];
    VObj [ ("name", VStr "search_organizations");
           ("description", VStr "Search for LinkedIn organizations");
           ("inputSchema",
            VObj [ ("type", VStr "object");
                   ("properties",
                    VObj [ ("query",
                            VObj [ ("type", VStr "string");
                                   ("description", VStr "Search query") ]);
                           ("limit",
                            VObj [ ("type", VStr "number");
                                   ("description", VStr "Max results");
                                   ("default", VNum 10) ]) ]);
                   ("required", VArr [VStr "query"]) ]) ];
    VObj [ ("name", VStr "get_organizations");
           ("description", VStr "Get user's organizations");
           ("inputSchema",
            VObj [ ("type", VStr "object");
                   ("properties",
                    VObj [ ("role",
                            VObj [ ("type", VStr "string");
                                   ("description", VStr "Filter by role") ]) ]);
                   ("required", VArr []) ]) ] ].

(** The value each [case] of the simplified [handleToolsCall] assigns to
    [result]. *)
Definition execute (h : Host) (tool : Tool) (args : value) : completion value :=
  match tool with
  | get_profile =>
      Normal
        (VObj [ ("status", VStr "demo");
                ("data",
                 VObj [ ("id", VStr "demo-user");
                        ("name", VStr "Demo LinkedIn User");
                        ("headline", VStr "Professional using MCP Server");
                        ("location", VStr "San Francisco, CA") ]) ])
  | create_post =>
      text <- Get args "text" ;;
      shown <- ToString text ;;
      visibility <- Get args "visibility" ;;
      Normal
        (VObj [ ("status", VStr "success");
                ("message",
                 VStr ("Post would be created: " ++ dquote ++ shown ++ dquote));
                ("data",
                 VObj [ ("visibility", or_else visibility (VStr "PUBLIC"));
                        ("id", VStr ("post-" ++ Z_to_string (Date_now h)));
                        ("createdAt", VStr (Date_toISOString h)) ]) ])
  | search_organizations =>
      query <- Get args "query" ;;
      shown <- ToString query ;;
      Normal
        (VObj [ ("status", VStr "demo");
                ("data",
                 VObj [ ("elements",
                         VArr [ VObj [ ("id",
                                        VStr ("org-" ++ Z_to_string (Date_now h)));
                                       ("name",
                                        VStr ("Demo Organization for " ++ dquote
                                              ++ shown ++ dquote));
                                       ("industry", VStr "Technology") ] ]) ]) ])
  | get_organizations =>
      role <- Get args "role" ;;
      Normal
        (VObj [ ("status", VStr "demo");
                ("data",
                 VObj [ ("elements",
                         VArr [ VObj [ ("organization",
                                        VStr "urn:li:organization:demo123");
                                       ("role", or_else role (VStr "MEMBER"));
                                       ("state", VStr "APPROVED") ] ]) ]) ])
  end.

(** The [switch (toolName)] of the simplified [handleToolsCall]: what ends
    up in [result]. *)
Definition tool_result (h : Host) (toolName args : value) : completion value :=
  match tool_of toolName with
  | Some tool => execute h tool args
  | None =>
      name <- ToString toolName ;;
      Normal (VObj [ ("error", VStr ("Unknown tool: " ++ name)) ])
  end.

Definition content_envelope (result : value) : value :=
  VObj [ ("jsonrpc", VStr "2.0");
         ("result",
          VObj [ ("content",
                  VArr [ VObj [ ("type", VStr "text");
                                ("text", JSON_stringify result) ] ]) ]) ].

(** The object returned by [createMCPServerInstance()]. *)
Definition createMCPServerInstance (h : Host) : ServerInstance :=
  {| handleInitialize := fun params =>
       VObj [ ("jsonrpc", VStr "2.0");
              ("result",
               VObj [ ("serverInfo",
                       VObj [ ("name", VStr "linkedin-mcp-server");
                              ("version", VStr "1.0.0");
                              ("protocol", VStr "MCP 1.0") ]);
                      ("capabilities",
                       VObj [ ("tools", VObj [ ("listChanged", VBool false) ]);
                              ("resources",
                               VObj [ ("subscribe", VBool false);
                                      ("listChanged", VBool false) ]) ]) ]) ];
     handleToolsList :=
       VObj [ ("jsonrpc", VStr "2.0");
              ("result", VObj [ ("tools", VArr tools_list) ]) ];
     handleToolsCall := fun params =>
       toolName <- Get params "name" ;;
       a <- Get params "arguments" ;;
       let args := or_else a (VObj []) in
       result <- tool_result h toolName args ;;
       Normal (content_envelope result) |}.

Definition method_not_found (method : string) : value :=
  VObj [ ("jsonrpc", VStr "2.0");
         ("error",
          VObj [ ("code", VNum (-32601));
                 ("message", VStr ("Method not found: " ++ method));
                 ("data",
                  VObj [ ("supportedMethods",
                          VArr [ VStr "initialize"; VStr "tools/list";
                                 VStr "tools/call" ]) ]) ]) ].

(** The [switch (method)] of [handleMCPRequest]; [mcpServer] is the object
    the methods are called on. *)
Definition route (mcpServer : ServerInstance) (method params : value)
  : completion value :=
  if strict_eq_str method "initialize" then
    Normal (handleInitialize mcpServer params)
  else if strict_eq_str method "tools/list" then
    Normal (handleToolsList mcpServer)
  else if strict_eq_str method "tools/call" then
    handleToolsCall mcpServer params
  else
    name <- ToString method ;;
    Normal (method_not_found name).

(** [if (requestId !== undefined) response.id = requestId] *)
Definition echo_id (requestId response : value) : value :=
  match requestId with
  | VUndefined => response
  | _ => Set_ response "id" requestId
  end.

(** The [try] block of [handleMCPRequest] from the decoded [requestData]
    on: the three reads, the routing, the id echo. *)
Definition dispatch (mcpServer : ServerInstance) (requestData : value)
  : completion value :=
  method <- Get requestData "method" ;;
  p <- Get requestData "params" ;;
  let params := or_else p (VObj []) in
  requestId <- Get requestData "id" ;;
  response <- route mcpServer method params ;;
  Normal (echo_id requestId response).

(** The envelope built by the [catch] block. *)
Definition request_error (h : Host) (error : exn) : value :=
  VObj [ ("jsonrpc", VStr "2.0");
         ("error",
          VObj [ ("code", VNum (-32603));
                 ("message", VStr ("Internal error: " ++ message h error));
                 ("data", VObj [ ("timestamp", VStr (Date_toISOString h)) ]) ]) ].

(** [handleMCPRequest(request)]; [json] is the outcome of
    [await request.json()]. *)
Definition handleMCPRequest (h : Host) (json : completion value) : Response :=
  try_catch
    (requestData <- json ;;
     response <- dispatch (createMCPServerInstance h) requestData ;;
     Normal (createJSONResponse response 200))
    (fun error => createJSONResponse (request_error h error) 500).

(** *** The shell around the request handler: fetch routing, CORS headers,
    cache clean-up and static assets *)

Definition CACHE_NAME : string := "linkedin-mcp-v2".

Definition STATIC_ASSETS : list string := [ "/"; "/index.html"; "/mcpServer.js" ].

(** What the [fetch] listener does with an event. *)
Inductive Handling : Type :=
| ByMCPRequest      (* event.respondWith(handleMCPRequest(event.request)) *)
| ByCORSPreflight   (* event.respondWith(handleCORSPreflight()) *)
| ByStaticRequest   (* event.respondWith(handleStaticRequest(event.request)) *)
| NotIntercepted.   (* the listener returns without responding *)

(** The [fetch] listener, on the path of the request URL and the request
    method. *)
Definition on_fetch (pathname method : string) : Handling :=
  if ((pathname =? "/mcp") && (method =? "POST"))%string then ByMCPRequest
  else if ((pathname =? "/mcp") && (method =? "OPTIONS"))%string then ByCORSPreflight
  else if (method =? "GET")%string then ByStaticRequest
  else NotIntercepted.

Definition getCORSHeaders : list (string * string) :=
  [ ("Access-Control-Allow-Origin", "*");
    ("Access-Control-Allow-Methods", "POST, GET, OPTIONS");
    ("Access-Control-Allow-Headers", "Content-Type, Authorization, Accept");
    ("Access-Control-Max-Age", "86400") ].

(** The headers object built by [createJSONResponse]: the content type, then
    the spread of [getCORSHeaders()]. *)
Definition json_headers : list (string * string) :=
  ("Content-Type", "application/json") :: getCORSHeaders.

(** A header of a headers object. *)
Fixpoint header (name : string) (headers : list (string * string)) : option string :=
  match headers with
  | [] => None
  | (k, v) :: rest => if (k =? name)%string then Some v else header name rest
  end.

(** The cache storage as the [activate] listener sees it: the named caches,
    each with its content. *)
Definition caches_keys {A} (storage : list (string * A)) : list string :=
  map fst storage.

Definition caches_delete {A} (cacheName : string) (storage : list (string * A))
  : list (string * A) :=
  filter (fun entry => negb (fst entry =? cacheName)%string) storage.

(** The [activate] listener: every key other than [CACHE_NAME] is deleted. *)
Definition activate {A} (storage : list (string * A)) : list (string * A) :=
  fold_left
    (fun remaining cacheName =>
       if negb (cacheName =? CACHE_NAME)%string
       then caches_delete cacheName remaining
       else remaining)
    (caches_keys storage) storage.

(** An HTTP response as far as the static handler looks at it. *)
Record HttpResponse : Type := {
  http_status : Z;
  statusText : string;
  http_body : string
}.

(** [response.ok] *)
Definition ok (response : HttpResponse) : bool :=
  (200 <=? http_status response) && (http_status response <=? 299).

Definition service_unavailable : HttpResponse :=
  {| http_status := 503;
     statusText := "Service Unavailable";
     http_body := "Service Unavailable" |}.

Section StaticAssets.

(** The cache opened under [CACHE_NAME] and the network are the browser's:
    [cache_match] is [await cache.match(request)], [cache_put] the cache
    once [cache.put(request, networkResponse.clone())] has settled, [fetch]
    the outcome of [await fetch(request)], which throws when the network
    is unreachable.  Opening the cache and looking a request up are taken
    not to fail. *)
Variables Request Cache : Type.
Variable cache_match : Cache -> Request -> option HttpResponse.
Variable cache_put : Cache -> Request -> HttpResponse -> Cache.
Variable fetch : Request -> completion HttpResponse.

(** [handleStaticRequest(request)]: the response, and the cache it
    leaves. *)
Definition handleStaticRequest (cache : Cache) (request : Request)
  : HttpResponse * Cache :=
  match cache_match cache request with
  | Some cachedResponse => (cachedResponse, cache)
  | None =>
      match fetch request with
      | Normal networkResponse =>
          (networkResponse,
           if ok networkResponse
           then cache_put cache request networkResponse
           else cache)
      | Throw error =>
          match cache_match cache request with
          | Some cachedResponse => (cachedResponse, cache)
          | None => (service_unavailable, cache)
          end
      end
  end.

End StaticAssets.

Arguments handleStaticRequest {Request Cache} cache_match cache_put fetch
  cache request.

End ServiceWorker.

(** ** Concrete inputs used by the examples *)

Module Samples.

(** A host reading the clock at 2023-11-14T22:13:20Z, with V8's wording of
    type errors.  The samples hold ASCII strings and plain literals only, so
    the last three members are never consulted; anything can stand for
    them. *)
Definition v8_message (k : TypeErrorKind) : string :=
  match k with
  | CannotConvertToPrimitive => "Cannot convert object to primitive value"
  | NotAFunction callee => callee ++ " is not a function"
  | CannotReadProperty receiver key =>
      "Cannot read properties of "
      ++ match receiver with VNull => "null" | _ => "undefined" end
      ++ " (reading '" ++ key ++ "')"
  end.

Definition host : Host :=
  {| Date_now := 1700000000000;
     Date_toISOString := "2023-11-14T22:13:20.000Z";
     TypeError_message := v8_message;
     Unicode_toLowerCase := fun s => s;
     Unicode_replace_spaces := fun s => s;
     String_toNumber := fun _ => NaN |}.

Definition call (name : string) (arguments : list (string * value)) : value :=
  VObj [ ("jsonrpc", VStr "2.0");
         ("method", VStr "tools/call");
         ("params", VObj [ ("name", VStr name); ("arguments", VObj arguments) ]) ].

(** An object as [JSON.parse] builds it from a body holding a [toString]
    member: the member is data, not a method. *)
Definition unprintable : value := VObj [ ("toString", VNum 1) ].

(** tools/call of create_post with such a [text], under request id 0. *)
Definition unprintable_post : value :=
  VObj [ ("method", VStr "tools/call");
         ("params",
          VObj [ ("name", VStr "create_post");
                 ("arguments", VObj [ ("text", unprintable) ]) ]);
         ("id", VNum 0) ].

(** The search of the specification's example. *)
Definition acme_search : value :=
  call "search_organizations" [ ("query", VStr "Acme"); ("limit", VNum 100) ].

(** A cache keyed by URL, newest entry first, and three networks. *)
Definition url_match (cache : list (string * ServiceWorker.HttpResponse))
    (url : string) : option ServiceWorker.HttpResponse :=
  match find (fun entry => (fst entry =? url)%string) cache with
  | Some entry => Some (snd entry)
  | None => None
  end.

Definition url_put (cache : list (string * ServiceWorker.HttpResponse))
    (url : string) (response : ServiceWorker.HttpResponse)
  : list (string * ServiceWorker.HttpResponse) :=
  (url, response) :: cache.

Definition page : ServiceWorker.HttpResponse :=
  {| ServiceWorker.http_status := 200;
     ServiceWorker.statusText := "OK";
     ServiceWorker.http_body := "<html></html>" |}.

Definition not_found : ServiceWorker.HttpResponse :=
  {| ServiceWorker.http_status := 404;
     ServiceWorker.statusText := "Not Found";
     ServiceWorker.http_body := "" |}.

Definition online (url : string) : completion ServiceWorker.HttpResponse :=
  if (url =? "/index.html")%string then Normal page else Normal not_found.

Definition offline (url : string) : completion ServiceWorker.HttpResponse :=
  Throw (Error "Failed to fetch").

End Samples.

(** ** Vocabulary of the statements *)

(** The own property [k] of an object, if it has one. *)
Definition own (k : string) (v : value) : option value :=
  match v with
  | VObj props => lookup k props
  | _ => None
  end.

(** A JSON-RPC response envelope: version 2.0 and exactly one of [result]
    and [error]. *)
Definition JSONRPC_envelope (v : value) : Prop :=
  field "jsonrpc" v = VStr "2.0"
  /\ xorb (has_field "result" v) (has_field "error" v) = true.

(** [i; i+1; ...], [k] of them. *)
Fixpoint count_from (i : Z) (k : nat) : list Z :=
  match k with
  | O => []
  | S k' => i :: count_from (i + 1) k'
  end.

(** The [name] members of a list of tool descriptors. *)
Definition names (descriptors : value) : list value :=
  match descriptors with
  | VArr l => map (field "name") l
  | _ => []
  end.

(** The elements a tool result carries under [data.elements]. *)
Definition elements (result : value) : list value :=
  match field "elements" (field "data" result) with
  | VArr l => l
  | _ => []
  end.

(** The text member of a string value. *)
Definition text_of (v : value) : string :=
  match v with
  | VStr s => s
  | _ => ""
  end.

(** What a method of a server object hands back to the router: an envelope
    object that carries no [id] yet. *)
Definition handler_output (r : value) : Prop :=
  exists props,
    r = VObj props
    /\ lookup "jsonrpc" props = Some (VStr "2.0")
    /\ xorb (has_field "result" r) (has_field "error" r) = true
    /\ lookup "id" props = None.

(** The value of a completion that returned; [undefined] stands in for
    one that threw. *)
Definition returned (c : completion value) : value :=
  match c with
  | Normal r => r
  | Throw _ => VUndefined
  end.

(** Turns the loop [for (...; i <= m; i++)] still has to take at [i]. *)
Definition remaining (m : num) (i : Z) : nat :=
  match m with
  | Fin n => Z.to_nat (n - i + 1)
  | _ => O
  end.

(** The cache left by one more static request, made on the network [fst
    visit] for the request [snd visit]. *)
Definition serve {Request Cache : Type}
    (cache_match : Cache -> Request -> option ServiceWorker.HttpResponse)
    (cache_put : Cache -> Request -> ServiceWorker.HttpResponse -> Cache)
    (cache : Cache)
    (visit : (Request -> completion ServiceWorker.HttpResponse) * Request)
  : Cache :=
  snd (ServiceWorker.handleStaticRequest cache_match cache_put (fst visit)
         cache (snd visit)).

(** The integer part of a number value. *)
Definition number (v : value) : option num :=
  match v with
  | VNum n => Some (Fin n)
  | VReal x _ => Some x
  | _ => None
  end.

(** How many of the indices 1, 2, ... are at most [min(x, 5)], for a number
    of integer part [x]. *)
Definition capped (x : num) : nat :=
  match x with
  | Fin n => Z.to_nat (Z.min n 5)
  | PosInf => 5%nat
  | NaN | NegInf => O
  end.

(** Every character of a string passes a test. *)
Fixpoint every_char (test : ascii -> bool) (s : string) : bool :=
  match s with
  | EmptyString => true
  | String c rest => test c && every_char test rest
  end.

(** The upper-case ASCII letters, which [toLowerCase] maps. *)
Definition is_upper (c : ascii) : bool :=
  ((65 <=? code c) && (code c <=? 90))%N.

Definition registry_names : list value :=
  [ VStr "get_profile"; VStr "create_post"; VStr "search_organizations";
    VStr "get_organizations" ].

(** ** Properties *)

Import ServiceWorker.

(** *** Own properties under assignment *)

Lemma lookup_set_same k v props : lookup k (set_prop k v props) = Some v.
Proof.
  induction props as [|[k' v'] rest IH]; simpl.
  - now rewrite String.eqb_refl.
  - destruct (k' =? k)%string eqn:E; simpl.
    + now rewrite String.eqb_refl.
    + now rewrite E.
Qed.

Lemma lookup_set_other k k' v props :
  k <> k' -> lookup k (set_prop k' v props) = lookup k props.
Proof.
  intros Hne.
  assert (Hkk : (k' =? k)%string = false)
    by (apply String.eqb_neq; congruence).
  induction props as [|[k0 v0] rest IH]; simpl.
  - now rewrite Hkk.
  - destruct (k0 =? k')%string eqn:E; simpl.
    + apply String.eqb_eq in E; subst k0. now rewrite Hkk.
    + now rewrite IH.
Qed.

Lemma Get_object props k : Get (VObj props) k = Normal (field k (VObj props)).
Proof. reflexivity. Qed.

(** A property read that yields a string comes from an object. *)
Lemma Get_string_inv v k s :
  Get v k = Normal (VStr s) ->
  exists props, v = VObj props /\ field k (VObj props) = VStr s.
Proof.
  destruct v; intros H; try discriminate.
  exists props; split; [reflexivity |].
  rewrite Get_object in H. now injection H.
Qed.

Lemma strict_eq_str_true v lit : strict_eq_str v lit = true -> v = VStr lit.
Proof.
  destruct v; simpl; try discriminate.
  intros H; apply String.eqb_eq in H; now subst.
Qed.

(** *** Substrings *)

Lemma prefix_app a b : prefix a (a ++ b) = true.
Proof.
  induction a as [|c a IH]; simpl.
  - now destruct b.
  - destruct (ascii_dec c c); [assumption | congruence].
Qed.

Lemma includes_here hay needle : prefix needle hay = true -> includes hay needle = true.
Proof. destruct hay; simpl; intros ->; reflexivity. Qed.

Lemma includes_app a b c : includes (a ++ b ++ c) b = true.
Proof.
  induction a as [|x a IH]; simpl.
  - apply includes_here, prefix_app.
  - rewrite IH. apply orb_true_r.
Qed.

Lemma includes_suffix a b : includes (a ++ b) b = true.
Proof.
  assert (Hnil : forall x : string, (x ++ "")%string = x)
    by (induction x; simpl; congruence).
  rewrite <- (Hnil b) at 1. apply includes_app.
Qed.

(** *** The echo of the request id *)

Lemma echo_own_id props (id : value) :
  own "id" (echo_id id (VObj props))
  = match id with
    | VUndefined => lookup "id" props
    | _ => Some id
    end.
Proof. destruct id; simpl; auto using lookup_set_same. Qed.

Lemma echo_keeps k props (id : value) :
  k <> "id" -> own k (echo_id id (VObj props)) = lookup k props.
Proof. intros Hk; destruct id; simpl; auto using lookup_set_other. Qed.

Lemma field_own k v :
  field k v = match own k v with Some x => x | None => VUndefined end.
Proof. destruct v; reflexivity. Qed.

Lemma has_field_own k v :
  has_field k v = match own k v with Some _ => true | None => false end.
Proof. destruct v; reflexivity. Qed.

(** *** Requests that are objects *)

Lemma dispatch_object mcpServer props :
  dispatch mcpServer (VObj props)
  = (response <- route mcpServer (field "method" (VObj props))
                   (or_else (field "params" (VObj props)) (VObj [])) ;;
     Normal (echo_id (field "id" (VObj props)) response)).
Proof. reflexivity. Qed.

Lemma handleMCPRequest_object h props :
  handleMCPRequest h (Normal (VObj props))
  = match route (createMCPServerInstance h) (field "method" (VObj props))
            (or_else (field "params" (VObj props)) (VObj [])) with
    | Normal response =>
        createJSONResponse (echo_id (field "id" (VObj props)) response) 200
    | Throw error => createJSONResponse (request_error h error) 500
    end.
Proof.
  unfold handleMCPRequest. cbn [bind try_catch]. rewrite dispatch_object.
  destruct (route _ _ _); reflexivity.
Qed.

(** *** tools/list *)

(** C5.  A request whose method is tools/list, whatever its params and id,
    is answered with status 200 and [result.tools] equal to the four
    descriptors of the server object, named get_profile, create_post,
    search_organizations, get_organizations in that order.  In the class
    [MCPServer] the same method returns the values of the registry in
    insertion order, under the same four names, which are also the registry's
    keys. *)
Theorem tools_list_registry_order :
  (forall h requestData,
      Get requestData "method" = Normal (VStr "tools/list") ->
      let r := handleMCPRequest h (Normal requestData) in
      status r = 200
      /\ field "tools" (field "result" (data r)) = VArr tools_list
      /\ names (field "tools" (field "result" (data r))) = registry_names
      /\ has_field "error" (data r) = false)
  /\ field "tools" (field "result" MCPServer.handleToolsList)
     = VArr (Object_values MCPServer.tools)
  /\ names (field "tools" (field "result" MCPServer.handleToolsList))
     = registry_names
  /\ Object_keys MCPServer.tools = registry_names.
Proof.
  split; [| repeat split].
  intros h requestData Hm.
  destruct (Get_string_inv _ _ _ Hm) as (props & -> & Hmethod).
  clear Hm; rename Hmethod into Hm.
  cbv zeta. rewrite handleMCPRequest_object, Hm.
  cbn [route strict_eq_str String.eqb Ascii.eqb Bool.eqb
       createMCPServerInstance handleToolsList data status createJSONResponse].
  rewrite !field_own, has_field_own, !echo_keeps by discriminate.
  repeat split.
Qed.

Lemma tools_list_registry_order_witness :
  Get (VObj [("method", VStr "tools/list"); ("params", VNum 7)]) "method"
  = Normal (VStr "tools/list")
  /\ names (field "tools" (field "result"
       (data (handleMCPRequest Samples.host
          (Normal (VObj [("method", VStr "tools/list"); ("params", VNum 7)]))))))
     = registry_names.
Proof.
  split; [reflexivity |].
  apply (proj1 tools_list_registry_order Samples.host
           (VObj [("method", VStr "tools/list"); ("params", VNum 7)])).
  reflexivity.
Defined.

(** *** Envelopes *)

Lemma handler_output_literal body :
  handler_output (VObj [("jsonrpc", VStr "2.0"); ("result", body)])
  /\ handler_output (VObj [("jsonrpc", VStr "2.0"); ("error", body)]).
Proof. split; eexists; repeat split. Qed.

Lemma sw_handleToolsCall_inv h params r :
  handleToolsCall (createMCPServerInstance h) params = Normal r ->
  exists toolName a result,
    Get params "name" = Normal toolName
    /\ Get params "arguments" = Normal a
    /\ tool_result h toolName (or_else a (VObj [])) = Normal result
    /\ r = ServiceWorker.content_envelope result.
Proof.
  cbn [handleToolsCall createMCPServerInstance].
  destruct (Get params "name") as [toolName|] eqn:Hn; [| discriminate].
  cbn [bind].
  destruct (Get params "arguments") as [a|] eqn:Ha; [| discriminate].
  cbn [bind].
  destruct (tool_result h toolName (or_else a (VObj []))) as [result|] eqn:Hr;
    [| discriminate].
  cbn [bind]. intros [= <-]. now exists toolName, a, result.
Qed.

Lemma route_output h method params r :
  route (createMCPServerInstance h) method params = Normal r -> handler_output r.
Proof.
  unfold route.
  destruct (strict_eq_str method "initialize").
  { intros [= <-]. apply handler_output_literal. }
  destruct (strict_eq_str method "tools/list").
  { intros [= <-]. apply handler_output_literal. }
  destruct (strict_eq_str method "tools/call").
  { intros H. apply sw_handleToolsCall_inv in H as (? & ? & ? & _ & _ & _ & ->).
    apply handler_output_literal. }
  destruct (ToString method); [| discriminate].
  intros [= <-]. apply handler_output_literal.
Qed.

Lemma echo_envelope id r : handler_output r -> JSONRPC_envelope (echo_id id r).
Proof.
  intros (props & -> & Hv & Hx & _). unfold JSONRPC_envelope.
  rewrite field_own, !has_field_own, !echo_keeps by discriminate.
  rewrite Hv. split; [reflexivity |].
  now rewrite !has_field_own in Hx.
Qed.

Lemma handler_output_envelope r : handler_output r -> JSONRPC_envelope r.
Proof. apply (echo_envelope VUndefined). Qed.

Lemma mcp_handleToolsCall_inv h params r :
  MCPServer.handleToolsCall h params = Normal r ->
  exists toolName arguments_ known,
    Get params "name" = Normal toolName
    /\ MCPServer.arguments_of params = Normal arguments_
    /\ MCPServer.registered toolName = Normal known
    /\ ((known = false
         /\ exists name, ToString toolName = Normal name
                         /\ r = MCPServer.unknown_tool_envelope name)
        \/ (known = true
            /\ exists result, MCPServer.callTool h toolName arguments_ = Normal result
                              /\ r = MCPServer.content_envelope result)
        \/ (known = true
            /\ exists error, MCPServer.callTool h toolName arguments_ = Throw error
                             /\ r = MCPServer.internal_error_envelope
                                      h error toolName arguments_)).
Proof.
  unfold MCPServer.handleToolsCall.
  destruct (Get params "name") as [toolName|] eqn:Hn; [| discriminate].
  cbn [bind].
  destruct (MCPServer.arguments_of params) as [arguments_|] eqn:Ha; [| discriminate].
  cbn [bind].
  destruct (MCPServer.registered toolName) as [known|] eqn:Hk; [| discriminate].
  cbn [bind]. intros H. exists toolName, arguments_, known.
  do 3 (split; [reflexivity || assumption |]).
  destruct known; cbn [negb] in H.
  - destruct (MCPServer.callTool h toolName arguments_) as [result|error] eqn:Hc;
      cbn [bind try_catch] in H; injection H as <-.
    + right; left. split; [reflexivity |]. now exists result.
    + right; right. split; [reflexivity |]. now exists error.
  - left. split; [reflexivity |].
    destruct (ToString toolName) as [name|]; [| discriminate].
    injection H as <-. now exists name.
Qed.

(** C9.  Whatever the outcome of decoding the request body, the object
    [handleMCPRequest] answers with has [jsonrpc] equal to 2.0 and exactly
    one of [result] and [error]; so has every envelope returned by the three
    handlers of the class [MCPServer]. *)
Theorem every_response_is_an_envelope :
  (forall h json, JSONRPC_envelope (data (handleMCPRequest h json)))
  /\ (forall params, JSONRPC_envelope (MCPServer.handleInitialize params))
  /\ JSONRPC_envelope MCPServer.handleToolsList
  /\ (forall h params r,
        MCPServer.handleToolsCall h params = Normal r -> JSONRPC_envelope r).
Proof.
  split; [| split; [| split]].
  - intros h [requestData | error]; [| split; reflexivity].
    destruct requestData; try (split; reflexivity).
    rewrite handleMCPRequest_object.
    destruct (route _ _ _) as [response|error] eqn:Hr; [| split; reflexivity].
    apply echo_envelope. eapply route_output; eassumption.
  - intros params; split; reflexivity.
  - split; reflexivity.
  - intros h params r H.
    apply mcp_handleToolsCall_inv in H
      as (? & ? & ? & _ & _ & _ & [(_ & ? & _ & ->) | [(_ & ? & _ & ->) | (_ & ? & _ & ->)]]);
      split; reflexivity.
Qed.

Lemma every_response_is_an_envelope_witness :
  MCPServer.handleToolsCall Samples.host (VObj [("name", VStr "get_profile")])
  = Normal (MCPServer.content_envelope MCPServer.getProfile)
  /\ JSONRPC_envelope (MCPServer.content_envelope MCPServer.getProfile).
Proof.
  split; [reflexivity |].
  apply (proj2 (proj2 (proj2 every_response_is_an_envelope)) Samples.host
           (VObj [("name", VStr "get_profile")])).
  reflexivity.
Defined.

(** *** Unknown methods *)

Lemma route_other_method mcpServer s params :
  s <> "initialize" -> s <> "tools/list" -> s <> "tools/call" ->
  route mcpServer (VStr s) params = Normal (method_not_found s).
Proof.
  intros H1 H2 H3. unfold route, strict_eq_str.
  apply String.eqb_neq in H1, H2, H3. now rewrite H1, H2, H3.
Qed.

(** C7.  A request whose method is a string other than initialize,
    tools/list and tools/call is answered (status 200) with an error envelope:
    code -32601, message [Method not found: ] followed by the method string
    itself, and [data.supportedMethods] listing the three methods in that
    order. *)
Theorem unknown_method_is_rejected :
  forall h requestData s,
    Get requestData "method" = Normal (VStr s) ->
    s <> "initialize" -> s <> "tools/list" -> s <> "tools/call" ->
    let r := handleMCPRequest h (Normal requestData) in
    let error := field "error" (data r) in
    status r = 200
    /\ has_field "result" (data r) = false
    /\ field "code" error = VNum (-32601)
    /\ field "message" error = VStr ("Method not found: " ++ s)
    /\ includes (text_of (field "message" error)) s = true
    /\ field "supportedMethods" (field "data" error)
       = VArr [VStr "initialize"; VStr "tools/list"; VStr "tools/call"].
Proof.
  intros h requestData s Hm H1 H2 H3.
  destruct (Get_string_inv _ _ _ Hm) as (props & -> & Hmethod).
  cbv zeta. rewrite handleMCPRequest_object, Hmethod.
  rewrite route_other_method by assumption.
  cbn [data status createJSONResponse]. unfold method_not_found.
  rewrite has_field_own, !(field_own _ (echo_id _ _)).
  rewrite !echo_keeps by discriminate.
  cbn [lookup String.eqb Ascii.eqb Bool.eqb field text_of].
  repeat split.
  apply includes_suffix.
Qed.

Lemma unknown_method_is_rejected_witness :
  let requestData := VObj [("method", VStr "resources/list"); ("id", VNum 3)] in
  field "message" (field "error" (data (handleMCPRequest Samples.host (Normal requestData))))
  = VStr "Method not found: resources/list".
Proof.
  cbv zeta.
  apply (unknown_method_is_rejected Samples.host
           (VObj [("method", VStr "resources/list"); ("id", VNum 3)])
           "resources/list"); [reflexivity | discriminate ..].
Defined.

(** The same default branch serves every method value that has a string
    form, a missing method included. *)
Lemma unknown_method_any_value h props method name :
  field "method" (VObj props) = method ->
  strict_eq_str method "initialize" = false ->
  strict_eq_str method "tools/list" = false ->
  strict_eq_str method "tools/call" = false ->
  ToString method = Normal name ->
  handleMCPRequest h (Normal (VObj props))
  = createJSONResponse
      (echo_id (field "id" (VObj props)) (method_not_found name)) 200.
Proof.
  intros Hm H1 H2 H3 Hs. rewrite handleMCPRequest_object, Hm.
  unfold route. now rewrite H1, H2, H3, Hs.
Qed.

(** *** The request id *)

(** C6, as the code has it.  Whenever [handleMCPRequest] answers with
    status 200, the response carries the request's id exactly when the
    request has one, and then it is the same value: 0 and the empty string
    are echoed like any other id.  The status 500 envelope built by the
    [catch] block never carries an id. *)
Theorem id_is_echoed_on_success :
  forall h requestData,
    let r := handleMCPRequest h (Normal requestData) in
    (status r = 200 ->
     own "id" (data r)
     = match field "id" requestData with
       | VUndefined => None
       | id => Some id
       end)
    /\ (status r = 500 -> own "id" (data r) = None).
Proof.
  intros h requestData; cbv zeta.
  destruct requestData;
    try (split; [discriminate | reflexivity]);
    try (split; [reflexivity | discriminate]).
  rewrite handleMCPRequest_object.
  destruct (route _ _ _) as [response|error] eqn:Hr.
  - split; [intros _ | discriminate].
    apply route_output in Hr as (rprops & -> & _ & _ & Hid).
    cbn [data createJSONResponse]. rewrite echo_own_id, Hid.
    now destruct (field "id" (VObj props)).
  - split; [discriminate | reflexivity].
Qed.

Lemma id_is_echoed_on_success_witness :
  own "id"
    (data (handleMCPRequest Samples.host
             (Normal (VObj [("method", VStr "tools/list"); ("id", VNum 0)]))))
  = Some (VNum 0)
  /\ own "id"
       (data (handleMCPRequest Samples.host
                (Normal (VObj [("method", VStr "initialize"); ("id", VStr "")]))))
     = Some (VStr "")
  /\ own "id"
       (data (handleMCPRequest Samples.host
                (Normal (VObj [("method", VStr "tools/list")]))))
     = None
  /\ own "id" (data (handleMCPRequest Samples.host (Normal VNull))) = None.
Proof.
  split; [| split; [| split]].
  - apply (proj1 (id_is_echoed_on_success Samples.host
                    (VObj [("method", VStr "tools/list"); ("id", VNum 0)]))).
    reflexivity.
  - apply (proj1 (id_is_echoed_on_success Samples.host
                    (VObj [("method", VStr "initialize"); ("id", VStr "")]))).
    reflexivity.
  - apply (proj1 (id_is_echoed_on_success Samples.host
                    (VObj [("method", VStr "tools/list")]))).
    reflexivity.
  - apply (proj2 (id_is_echoed_on_success Samples.host VNull)).
    reflexivity.
Defined.

(** C6 as stated fails: a tools/call whose [text] argument cannot be turned
    into a string makes the simplified handler throw; the [catch] block
    answers, and its envelope has no id although the request has id 0. *)
Lemma id_dropped_by_catch_block :
  field "id" Samples.unprintable_post = VNum 0
  /\ status (handleMCPRequest Samples.host (Normal Samples.unprintable_post)) = 500
  /\ has_field "id"
       (data (handleMCPRequest Samples.host (Normal Samples.unprintable_post)))
     = false
  /\ field "id" (data (handleMCPRequest Samples.host (Normal Samples.unprintable_post)))
     <> field "id" Samples.unprintable_post.
Proof. repeat split. discriminate. Qed.

(** *** Tool names *)

(** Inverts a successful sequence of binds, one step at a time. *)
Ltac bind_inv H :=
  repeat match type of H with
         | bind ?c _ = Normal _ =>
             let E := fresh "E" in
             destruct c eqn:E; cbn [bind] in H; [| discriminate H]
         end.

Lemma tool_of_label toolName tool :
  tool_of toolName = Some tool -> toolName = VStr (label tool).
Proof.
  unfold tool_of.
  repeat match goal with
         | |- context [strict_eq_str ?v ?l] =>
             destruct (strict_eq_str v l) eqn:?
         end;
    intros [= <-]; auto using strict_eq_str_true.
Qed.

Lemma tool_of_registry toolName :
  In toolName registry_names <-> exists tool, tool_of toolName = Some tool.
Proof.
  split.
  - simpl. intros [<- | [<- | [<- | [<- | []]]]]; eexists; reflexivity.
  - intros [tool H]. apply tool_of_label in H as ->.
    destruct tool; simpl; tauto.
Qed.

Lemma tool_of_outsider toolName :
  ~ In toolName registry_names -> tool_of toolName = None.
Proof.
  intros Hout. destruct (tool_of toolName) as [tool|] eqn:E; [| reflexivity].
  exfalso. apply Hout, tool_of_registry. eauto.
Qed.

Lemma mem_string_false s l : ~ In s l -> mem_string s l = false.
Proof.
  unfold mem_string. induction l as [|x l IH]; simpl; [reflexivity |].
  intros Hn. rewrite IH by tauto.
  destruct (x =? s)%string eqn:E; [| reflexivity].
  apply String.eqb_eq in E. tauto.
Qed.

Lemma Get_Normal_field v k x : Get v k = Normal x -> x = field k v.
Proof. destruct v; intros H; try discriminate; now injection H. Qed.

Lemma Get_any v k x k' : Get v k = Normal x -> Get v k' = Normal (field k' v).
Proof. destruct v; intros H; try discriminate; reflexivity. Qed.

(** A key that is neither an entry of the registry nor inherited finds
    nothing in [this.tools]. *)
Lemma registered_outsider toolName key :
  ToString toolName = Normal key ->
  ~ In (VStr key) registry_names ->
  ~ In key Object_prototype_keys ->
  MCPServer.registered toolName = Normal false.
Proof.
  intros Hs Hreg Hproto. unfold MCPServer.registered. rewrite Hs. cbn [bind].
  rewrite (mem_string_false _ _ Hproto), orb_false_r.
  assert (E : forall l, (l =? key)%string = true -> In (VStr l) registry_names
                        -> False).
  { intros l Hl Hin. apply String.eqb_eq in Hl. subst. auto. }
  unfold MCPServer.tools, MCPServer.initializeTools, field, lookup.
  repeat match goal with
         | |- context [(?l =? key)%string] =>
             let Q := fresh in
             destruct (l =? key)%string eqn:Q;
             [exfalso; apply (E _ Q); simpl; tauto | clear Q]
         end.
  reflexivity.
Qed.

(** C1, as the code has it.  In the class [MCPServer], a tools/call whose
    name is neither an entry of the registry nor a name inherited from
    [Object.prototype] is answered with error code -32602, the message
    [Unknown tool: ] followed by the name, and [data.availableTools] equal to
    the four registered names in order.  The simplified server object used by
    [handleMCPRequest] has no such error: for a name outside the four it
    returns a result envelope whose text is the serialization of an object
    holding [error: Unknown tool: name].  In both, the names that select an
    executor are exactly the four names returned by tools/list, and the
    guard of the class lets all four through. *)
Theorem unknown_tool_is_reported :
  (forall h params toolName key,
      Get params "name" = Normal toolName ->
      ToString toolName = Normal key ->
      ~ In (VStr key) registry_names ->
      ~ In key Object_prototype_keys ->
      exists r,
        MCPServer.handleToolsCall h params = Normal r
        /\ has_field "result" r = false
        /\ field "code" (field "error" r) = VNum (-32602)
        /\ field "message" (field "error" r) = VStr ("Unknown tool: " ++ key)
        /\ field "availableTools" (field "data" (field "error" r))
           = VArr registry_names)
  /\ (forall h params toolName name,
        Get params "name" = Normal toolName ->
        ToString toolName = Normal name ->
        ~ In toolName registry_names ->
        handleToolsCall (createMCPServerInstance h) params
        = Normal (ServiceWorker.content_envelope
                    (VObj [("error", VStr ("Unknown tool: " ++ name))])))
  /\ (forall toolName,
        In toolName registry_names <-> exists tool, tool_of toolName = Some tool)
  /\ (forall toolName,
        In toolName registry_names -> MCPServer.registered toolName = Normal true)
  /\ names (field "tools" (field "result" MCPServer.handleToolsList))
     = registry_names
  /\ (forall h,
        names (field "tools" (field "result"
                 (handleToolsList (createMCPServerInstance h))))
        = registry_names).
Proof.
  split; [| split; [| split; [| split; [| split]]]].
  - intros h params toolName key Hn Hs Hreg Hproto.
    eexists. unfold MCPServer.handleToolsCall, MCPServer.arguments_of.
    rewrite Hn, (Get_any _ _ _ "arguments" Hn). cbn [bind].
    rewrite (registered_outsider _ _ Hs Hreg Hproto). cbn [bind negb].
    rewrite Hs. cbn [bind]. repeat split.
  - intros h params toolName name Hn Hs Hout.
    cbn [handleToolsCall createMCPServerInstance].
    rewrite Hn, (Get_any _ _ _ "arguments" Hn). cbn [bind].
    unfold tool_result. rewrite (tool_of_outsider _ Hout), Hs. reflexivity.
  - apply tool_of_registry.
  - simpl. intros toolName [<- | [<- | [<- | [<- | []]]]]; reflexivity.
  - reflexivity.
  - intros h; reflexivity.
Qed.

Lemma unknown_tool_is_reported_witness :
  field "code" (field "error"
    (returned (MCPServer.handleToolsCall Samples.host
                 (VObj [("name", VStr "delete_post")])))) = VNum (-32602)
  /\ handleToolsCall (createMCPServerInstance Samples.host)
       (VObj [("name", VStr "delete_post")])
     = Normal (ServiceWorker.content_envelope
                 (VObj [("error", VStr "Unknown tool: delete_post")]))
  /\ MCPServer.registered (VStr "create_post") = Normal true.
Proof.
  assert (Hout : ~ In (VStr "delete_post") registry_names)
    by (simpl; intros [H | [H | [H | [H | []]]]]; discriminate H).
  destruct unknown_tool_is_reported as (Hclass & Hworker & _ & Hguard & _).
  split; [| split].
  - destruct (Hclass Samples.host (VObj [("name", VStr "delete_post")])
                (VStr "delete_post") "delete_post")
      as (r & Hr & _ & Hcode & _);
      [reflexivity | reflexivity | exact Hout | simpl; intuition discriminate |].
    rewrite Hr. exact Hcode.
  - apply (Hworker Samples.host (VObj [("name", VStr "delete_post")])
             (VStr "delete_post") "delete_post");
      [reflexivity | reflexivity | exact Hout].
  - apply Hguard. simpl. tauto.
Defined.

(** C1 as stated fails on the request router: a tools/call naming no
    registered tool is answered with status 200 and a result, not with error
    -32602. *)
Lemma unknown_tool_gets_a_result :
  ~ In (VStr "delete_post") registry_names
  /\ status (handleMCPRequest Samples.host (Normal (Samples.call "delete_post" [])))
     = 200
  /\ has_field "error"
       (data (handleMCPRequest Samples.host (Normal (Samples.call "delete_post" []))))
     = false
  /\ field "code" (field "error"
       (data (handleMCPRequest Samples.host (Normal (Samples.call "delete_post" [])))))
     <> VNum (-32602)
  /\ field "result"
       (data (handleMCPRequest Samples.host (Normal (Samples.call "delete_post" []))))
     = field "result"
         (ServiceWorker.content_envelope
            (VObj [("error", VStr "Unknown tool: delete_post")])).
Proof.
  repeat split; try discriminate.
  simpl. intros [H | [H | [H | [H | []]]]]; discriminate H.
Qed.

(** In the class, a name that [this.tools] inherits passes the guard and
    reaches the [default] case of the switch: the answer is the internal
    error, not the unknown-tool error. *)
Example inherited_name_passes_the_guard :
  MCPServer.handleToolsCall Samples.host (VObj [("name", VStr "toString")])
  = Normal (MCPServer.internal_error_envelope Samples.host
              (Error "Tool toString not implemented")
              (VStr "toString") (VObj [])).
Proof. reflexivity. Qed.

(** *** Failures *)

(** C3, as the code has it.  [handleMCPRequest] always answers: with the
    routed response and status 200, or, when decoding or anything inside the
    [try] block throws, with status 500 and an error envelope of code
    -32603 whose message embeds the exception's message and whose data holds
    a timestamp.  In the class [MCPServer], an exception raised by the
    switch of a tools/call that passed the guard is caught by
    [handleToolsCall] itself: the envelope has code -32603, a message
    embedding the exception's message, and data holding the tool name and the
    arguments passed. *)
Theorem failures_become_error_envelopes :
  (forall h json,
      (exists response,
          (requestData <- json ;; dispatch (createMCPServerInstance h) requestData)
          = Normal response
          /\ handleMCPRequest h json = createJSONResponse response 200)
      \/ (exists error,
             (requestData <- json ;; dispatch (createMCPServerInstance h) requestData)
             = Throw error
             /\ handleMCPRequest h json
                = createJSONResponse (request_error h error) 500
             /\ has_field "result" (request_error h error) = false
             /\ field "code" (field "error" (request_error h error)) = VNum (-32603)
             /\ field "message" (field "error" (request_error h error))
                = VStr ("Internal error: " ++ message h error)
             /\ field "data" (field "error" (request_error h error))
                = VObj [("timestamp", VStr (Date_toISOString h))]))
  /\ (forall h params toolName arguments_ error,
        Get params "name" = Normal toolName ->
        MCPServer.arguments_of params = Normal arguments_ ->
        MCPServer.registered toolName = Normal true ->
        MCPServer.callTool h toolName arguments_ = Throw error ->
        exists r,
          MCPServer.handleToolsCall h params = Normal r
          /\ has_field "result" r = false
          /\ field "code" (field "error" r) = VNum (-32603)
          /\ field "message" (field "error" r)
             = VStr ("Internal error: " ++ message h error)
          /\ includes (text_of (field "message" (field "error" r)))
                (message h error) = true
          /\ field "tool" (field "data" (field "error" r)) = toolName
          /\ field "arguments" (field "data" (field "error" r)) = arguments_).
Proof.
  split.
  - intros h json. unfold handleMCPRequest.
    destruct (requestData <- json ;; dispatch (createMCPServerInstance h) requestData)
      as [response|error] eqn:E.
    + left. exists response. split; [reflexivity |].
      destruct json as [requestData|]; [| discriminate].
      cbn [bind] in *. now rewrite E.
    + right. exists error. split; [reflexivity |].
      split; [| repeat split].
      destruct json as [requestData|e]; cbn [bind] in *.
      * now rewrite E.
      * now injection E as ->.
  - intros h params toolName arguments_ error Hn Ha Hk Hc.
    eexists. unfold MCPServer.handleToolsCall.
    rewrite Hn. cbn [bind]. rewrite Ha. cbn [bind]. rewrite Hk.
    cbn [bind negb]. rewrite Hc. cbn [bind try_catch].
    repeat split. apply includes_suffix.
Qed.

Lemma failures_become_error_envelopes_witness :
  field "tool" (field "data" (field "error"
    (returned (MCPServer.handleToolsCall Samples.host
                 (VObj [ ("name", VStr "search_organizations");
                         ("arguments", VObj [("query", VNum 3)]) ])))))
  = VStr "search_organizations".
Proof.
  destruct (proj2 failures_become_error_envelopes Samples.host
              (VObj [ ("name", VStr "search_organizations");
                      ("arguments", VObj [("query", VNum 3)]) ])
              (VStr "search_organizations") (VObj [("query", VNum 3)])
              (TypeError (NotAFunction "query.toLowerCase")))
    as (r & Hr & _ & _ & _ & _ & Htool & _);
    [reflexivity | reflexivity | reflexivity | reflexivity |].
  rewrite Hr. exact Htool.
Defined.

(** C3 as stated fails on the request router: when the simplified
    create_post throws on a [text] it cannot turn into a string, nothing
    catches before the [catch] block of [handleMCPRequest], whose envelope
    names neither the tool nor the arguments. *)
Lemma executor_failure_without_tool_data :
  tool_result Samples.host (VStr "create_post")
    (VObj [("text", Samples.unprintable)])
  = Throw (TypeError CannotConvertToPrimitive)
  /\ handleMCPRequest Samples.host (Normal Samples.unprintable_post)
     = createJSONResponse
         (request_error Samples.host (TypeError CannotConvertToPrimitive)) 500
  /\ has_field "tool"
       (field "data" (field "error"
          (data (handleMCPRequest Samples.host (Normal Samples.unprintable_post)))))
     = false
  /\ has_field "arguments"
       (field "data" (field "error"
          (data (handleMCPRequest Samples.host (Normal Samples.unprintable_post)))))
     = false.
Proof. repeat split. Qed.

(** *** The content wrapper *)

Lemma JSON_stringify_object props :
  exists text, JSON_stringify (VObj props) = VStr text.
Proof. eexists. reflexivity. Qed.

Lemma sw_tool_result_object h toolName args result :
  tool_result h toolName args = Normal result -> exists props, result = VObj props.
Proof.
  unfold tool_result. destruct (tool_of toolName) as [[]|]; cbn [ServiceWorker.execute];
    intros H; bind_inv H; injection H as <-; eauto.
Qed.

Lemma mcp_callTool_object h toolName arguments_ result :
  MCPServer.callTool h toolName arguments_ = Normal result ->
  exists props, result = VObj props.
Proof.
  unfold MCPServer.callTool.
  destruct (tool_of toolName) as [[]|]; cbn [MCPServer.execute]; intros H.
  - injection H as <-. eexists; reflexivity.
  - bind_inv H. unfold MCPServer.createPost in H. bind_inv H.
    injection H as <-. eauto.
  - bind_inv H. unfold MCPServer.searchOrganizations in H. bind_inv H.
    injection H as <-. eauto.
  - bind_inv H. injection H as <-. eexists; reflexivity.
  - bind_inv H. discriminate.
Qed.

(** C4.  A tools/call that [handleMCPRequest] answers with status 200
    carries no error, and its [result] is exactly an object whose [content] is
    a one-element array holding [type: text] and, as [text], the string
    [JSON.stringify(result, null, 2)] of what the switch produced.  In the
    class [MCPServer], every envelope of [handleToolsCall] that has a
    [result] is exactly that wrapper around the serialization of what the
    selected executor returned. *)
Theorem tool_output_is_wrapped_as_text :
  (forall h requestData,
      Get requestData "method" = Normal (VStr "tools/call") ->
      status (handleMCPRequest h (Normal requestData)) = 200 ->
      let params := or_else (field "params" requestData) (VObj []) in
      exists result text,
        tool_result h (field "name" params)
          (or_else (field "arguments" params) (VObj [])) = Normal result
        /\ JSON_stringify result = VStr text
        /\ has_field "error" (data (handleMCPRequest h (Normal requestData))) = false
        /\ field "result" (data (handleMCPRequest h (Normal requestData)))
           = VObj [ ("content",
                     VArr [ VObj [ ("type", VStr "text");
                                   ("text", VStr text) ] ]) ])
  /\ (forall h params r,
        MCPServer.handleToolsCall h params = Normal r ->
        has_field "result" r = true ->
        exists toolName arguments_ result text,
          Get params "name" = Normal toolName
          /\ MCPServer.arguments_of params = Normal arguments_
          /\ MCPServer.callTool h toolName arguments_ = Normal result
          /\ JSON_stringify result = VStr text
          /\ r = VObj [ ("jsonrpc", VStr "2.0");
                        ("result",
                         VObj [ ("content",
                                 VArr [ VObj [ ("type", VStr "text");
                                               ("text", VStr text) ] ]) ]) ]).
Proof.
  split.
  - intros h requestData Hm.
    destruct (Get_string_inv _ _ _ Hm) as (props & -> & Hmethod).
    rewrite handleMCPRequest_object, Hmethod.
    cbn [route strict_eq_str String.eqb Ascii.eqb Bool.eqb].
    destruct (handleToolsCall _ _) as [response|error] eqn:Hc; [| discriminate].
    intros _.
    apply sw_handleToolsCall_inv in Hc as (toolName & a & result & Hn & Ha & Hr & ->).
    apply Get_Normal_field in Hn, Ha. subst toolName a.
    destruct (sw_tool_result_object _ _ _ _ Hr) as [rprops ->].
    destruct (JSON_stringify_object rprops) as [text Ht].
    exists (VObj rprops), text.
    split; [assumption |]. split; [assumption |].
    cbn [data createJSONResponse]. unfold ServiceWorker.content_envelope.
    rewrite has_field_own, (field_own "result"), !echo_keeps by discriminate.
    rewrite Ht. split; reflexivity.
  - intros h params r H Hres.
    apply mcp_handleToolsCall_inv in H
      as (toolName & arguments_ & known & Hn & Ha & _
          & [(_ & ? & _ & ->) | [(_ & result & Hc & ->) | (_ & ? & _ & ->)]]);
      try discriminate Hres.
    destruct (mcp_callTool_object _ _ _ _ Hc) as [rprops ->].
    destruct (JSON_stringify_object rprops) as [text Ht].
    exists toolName, arguments_, (VObj rprops), text.
    unfold MCPServer.content_envelope. rewrite Ht. repeat split; assumption.
Qed.

Lemma tool_output_is_wrapped_as_text_witness :
  (exists text,
      field "result"
        (data (handleMCPRequest Samples.host (Normal Samples.acme_search)))
      = VObj [ ("content",
                VArr [ VObj [ ("type", VStr "text"); ("text", VStr text) ] ]) ])
  /\ (exists text,
        MCPServer.content_envelope MCPServer.getProfile
        = VObj [ ("jsonrpc", VStr "2.0");
                 ("result",
                  VObj [ ("content",
                          VArr [ VObj [ ("type", VStr "text");
                                        ("text", VStr text) ] ]) ]) ]).
Proof.
  destruct tool_output_is_wrapped_as_text as [Hworker Hclass].
  split.
  - destruct (Hworker Samples.host Samples.acme_search)
      as (_ & text & _ & _ & _ & H); [reflexivity | reflexivity |].
    exists text. exact H.
  - destruct (Hclass Samples.host (VObj [("name", VStr "get_profile")])
                (MCPServer.content_envelope MCPServer.getProfile))
      as (_ & _ & _ & text & _ & _ & _ & _ & H); [reflexivity | reflexivity |].
    exists text. exact H.
Defined.

(** *** search_organizations *)

(** With a string query and a bound that is not infinite the loop never
    throws: it pushes the records of the next indices, as many as the bound
    and the fuel allow. *)
Lemma push_results_any h fuel q m : forall i mockResults,
  m <> PosInf ->
  MCPServer.push_results h fuel (VStr q) m i mockResults
  = Normal (mockResults
            ++ map (MCPServer.organization_record h q)
                 (count_from i (Nat.min fuel (remaining m i))))%list.
Proof.
  induction fuel as [|fuel IH]; intros i mockResults Hm;
    cbn [MCPServer.push_results].
  - cbn [Nat.min count_from map]. now rewrite app_nil_r.
  - destruct m as [n| | |]; cbn [le_num remaining]; try congruence;
      try (rewrite Nat.min_0_r; cbn [count_from map]; now rewrite app_nil_r).
    destruct (i <=? n) eqn:E.
    + apply Z.leb_le in E. cbn [MCPServer.organization bind].
      rewrite IH by discriminate. cbn [remaining].
      replace (Z.to_nat (n - i + 1)) with (S (Z.to_nat (n - (i + 1) + 1))) by lia.
      cbn [Nat.min count_from map]. now rewrite <- app_assoc.
    + apply Z.leb_gt in E.
      replace (Z.to_nat (n - i + 1)) with O by lia.
      rewrite Nat.min_0_r. cbn [count_from map]. now rewrite app_nil_r.
Qed.

Lemma push_results_string h fuel q n i mockResults :
  MCPServer.push_results h fuel (VStr q) (Fin n) i mockResults
  = Normal (mockResults
            ++ map (MCPServer.organization_record h q)
                 (count_from i (Nat.min fuel (remaining (Fin n) i))))%list.
Proof. apply push_results_any. discriminate. Qed.

(** Fuel beyond the turns that remain is never consumed. *)
Lemma push_results_fuel h extra query m : forall fuel i mockResults,
  m <> PosInf ->
  (remaining m i <= fuel)%nat ->
  MCPServer.push_results h (fuel + extra) query m i mockResults
  = MCPServer.push_results h fuel query m i mockResults.
Proof.
  induction fuel as [|fuel IH]; intros i mockResults Hm Hrem.
  - destruct extra; [reflexivity |]. cbn [Nat.add MCPServer.push_results].
    destruct m as [n| | |]; cbn [le_num remaining] in *;
      try reflexivity; try congruence.
    destruct (i <=? n) eqn:E; [| reflexivity].
    apply Z.leb_le in E. lia.
  - cbn [Nat.add MCPServer.push_results].
    destruct (le_num i m) eqn:E; [| reflexivity].
    destruct (MCPServer.organization h query i); [| reflexivity].
    cbn [bind]. apply IH; [assumption |].
    destruct m as [n| | |]; cbn [remaining le_num] in *; lia.
Qed.

Lemma num_min_five x :
  num_min x (Fin 5) <> PosInf
  /\ Nat.min 5 (remaining (num_min x (Fin 5)) 1) = capped x.
Proof.
  destruct x; cbn [num_min remaining capped]; split; try discriminate; lia.
Qed.

Lemma Math_min_five h limit m :
  Math_min h limit (VNum 5) = Normal m ->
  m <> PosInf /\ (remaining m 1 <= 5)%nat.
Proof.
  unfold Math_min.
  destruct (ToNumber h limit) as [x|]; cbn [ToNumber bind]; [| discriminate].
  intros [= <-].
  destruct x; cbn [num_min remaining]; split; try discriminate; lia.
Qed.

(** The five turns of fuel given to the loop of [searchOrganizations] are
    enough: more fuel gives the same result. *)
Lemma searchOrganizations_fuel h extra query limit :
  (m <- Math_min h (default_param limit (VNum 10)) (VNum 5) ;;
   MCPServer.push_results h (5 + extra) query m 1 [])
  = (m <- Math_min h (default_param limit (VNum 10)) (VNum 5) ;;
     MCPServer.push_results h 5 query m 1 []).
Proof.
  destruct (Math_min _ _ _) as [m|] eqn:E; [| reflexivity].
  cbn [bind]. apply Math_min_five in E as [Hm Hrem].
  now apply push_results_fuel.
Qed.

Lemma count_from_length i k : List.length (count_from i k) = k.
Proof. revert i; induction k; intros i; simpl; auto. Qed.

(** A search for a string under a limit that is a number. *)
Lemma searchOrganizations_number h q limit x :
  number limit = Some x ->
  MCPServer.searchOrganizations h (VStr q) limit
  = Normal
      (VObj [ ("status", VStr "demo");
              ("message",
               VStr "Demo search results. Connect LinkedIn API for real data.");
              ("data",
               VObj [ ("elements",
                       VArr (map (MCPServer.organization_record h q)
                               (count_from 1 (capped x))));
                      ("paging",
                       VObj [ ("total", VNum (Z.of_nat (capped x)));
                              ("count", VNum (Z.of_nat (capped x)));
                              ("start", VNum 0) ]) ]) ]).
Proof.
  intros Hx. unfold MCPServer.searchOrganizations, Math_min.
  assert (E : ToNumber h (default_param limit (VNum 10)) = Normal x)
    by (destruct limit; try discriminate; injection Hx as <-; reflexivity).
  rewrite E. cbn [ToNumber bind].
  destruct (num_min_five x) as [Hm Hc].
  rewrite push_results_any by exact Hm. cbn [bind app]. rewrite Hc.
  now rewrite length_map, count_from_length.
Qed.

Lemma searchOrganizations_string h q limit :
  MCPServer.searchOrganizations h (VStr q) (VNum limit)
  = Normal
      (VObj [ ("status", VStr "demo");
              ("message",
               VStr "Demo search results. Connect LinkedIn API for real data.");
              ("data",
               VObj [ ("elements",
                       VArr (map (MCPServer.organization_record h q)
                               (count_from 1 (Z.to_nat (Z.min limit 5)))));
                      ("paging",
                       VObj [ ("total", VNum (Z.of_nat (Z.to_nat (Z.min limit 5))));
                              ("count", VNum (Z.of_nat (Z.to_nat (Z.min limit 5))));
                              ("start", VNum 0) ]) ]) ]).
Proof. apply (searchOrganizations_number h q (VNum limit) (Fin limit)). reflexivity. Qed.

(** For an index that is not negative, [i % 5] is the index modulo 5. *)
Lemma index_remainder5 l i :
  0 <= i ->
  MCPServer.index l (MCPServer.remainder5 i) = nth (Z.to_nat (i mod 5)) l VUndefined.
Proof.
  intros Hi. unfold MCPServer.index, MCPServer.remainder5.
  rewrite Z.rem_mod_nonneg by lia.
  destruct (i mod 5 <? 0) eqn:E; [| reflexivity].
  apply Z.ltb_lt in E. pose proof (Z.mod_pos_bound i 5). lia.
Qed.

(** C2, as the code has it.  [searchOrganizations] of the class, given a
    string query and a limit that is a number, returns the records of the
    indices 1, 2, ... that are at most [min(limit, 5)]: as many as the
    integer part of [min(limit, 5)] when that is at least 1 (exactly
    [min(limit, 5)] for an integer limit from 1 on), none otherwise; [paging]
    reports the same count.  The record of index [i], between 1 and 5, has id
    [org-], then [query.toLowerCase().replace(/\s+/g, '-')], a dash and [i];
    its name is the query followed by [ Organization i], so it contains the
    query; industry and location are the entries at position [i mod 5] of two
    fixed lists of five.  Through [handleToolsCall] of the class, the search
    for Acme with limit 100 yields exactly 5 such elements, each name
    containing Acme.  Through [handleMCPRequest] the same request reaches the
    simplified handler and yields exactly one element, whose name contains
    Acme. *)
Theorem search_organizations_records :
  (forall h q limit x,
      number limit = Some x ->
      exists result,
        MCPServer.searchOrganizations h (VStr q) limit = Normal result
        /\ elements result
           = map (MCPServer.organization_record h q) (count_from 1 (capped x))
        /\ List.length (elements result) = capped x
        /\ field "total" (field "paging" (field "data" result))
           = VNum (Z.of_nat (capped x)))
  /\ (forall n, 1 <= n -> Z.of_nat (capped (Fin n)) = Z.min n 5)
  /\ (forall n, n < 1 -> capped (Fin n) = O)
  /\ (forall h q i,
        1 <= i <= 5 ->
        let record := MCPServer.organization_record h q i in
        field "id" record
        = VStr ("org-" ++ replace_spaces h (toLowerCase h q)
                ++ "-" ++ Z_to_string i)
        /\ field "localizedName" record
           = VStr (q ++ " Organization " ++ Z_to_string i)
        /\ includes (text_of (field "localizedName" record)) q = true
        /\ field "industry" record
           = nth (Z.to_nat (i mod 5)) MCPServer.industries VUndefined
        /\ field "location" record
           = nth (Z.to_nat (i mod 5)) MCPServer.locations VUndefined
        /\ List.length MCPServer.industries = 5%nat
        /\ List.length MCPServer.locations = 5%nat)
  /\ (forall h,
        exists result,
          MCPServer.handleToolsCall h (field "params" Samples.acme_search)
          = Normal (MCPServer.content_envelope result)
          /\ List.length (elements result) = 5%nat
          /\ Forall (fun e => includes (text_of (field "localizedName" e)) "Acme"
                              = true) (elements result))
  /\ (forall h,
        exists result,
          handleMCPRequest h (Normal Samples.acme_search)
          = createJSONResponse (ServiceWorker.content_envelope result) 200
          /\ List.length (elements result) = 1%nat
          /\ Forall (fun e => includes (text_of (field "name" e)) "Acme" = true)
               (elements result)).
Proof.
  split; [| split; [| split; [| split; [| split]]]].
  - intros h q limit x Hx. eexists.
    split; [apply (searchOrganizations_number h q limit x Hx) |].
    unfold elements. cbn [field lookup String.eqb Ascii.eqb Bool.eqb].
    split; [reflexivity |]. split; [| reflexivity].
    now rewrite length_map, count_from_length.
  - intros n Hn. cbn [capped]. lia.
  - intros n Hn. cbn [capped]. lia.
  - intros h q i Hi record. subst record. unfold MCPServer.organization_record.
    cbn [field lookup String.eqb Ascii.eqb Bool.eqb text_of].
    rewrite !index_remainder5 by lia. repeat split.
    apply (includes_app "" q).
  - intros h. eexists. split; [reflexivity |]. split; [reflexivity |].
    repeat constructor.
  - intros h. eexists. split; [reflexivity |]. split; [reflexivity |].
    repeat constructor.
Qed.

Lemma search_organizations_records_witness :
  List.length
    (elements (returned (MCPServer.searchOrganizations Samples.host (VStr "Acme")
                           (VReal (Fin 3) "3.7"))))
  = 3%nat
  /\ Z.of_nat (capped (Fin 100)) = Z.min 100 5
  /\ capped (Fin 0) = O
  /\ field "industry" (MCPServer.organization_record Samples.host "Acme" 5)
     = nth (Z.to_nat (5 mod 5)) MCPServer.industries VUndefined.
Proof.
  destruct search_organizations_records as (Hcount & Hup & Hdown & Hrecord & _).
  split; [| split; [| split]].
  - destruct (Hcount Samples.host "Acme" (VReal (Fin 3) "3.7") (Fin 3) eq_refl)
      as (result & Hr & _ & Hlen & _).
    rewrite Hr. exact Hlen.
  - apply Hup. lia.
  - apply Hdown. lia.
  - apply (Hrecord Samples.host "Acme" 5). lia.
Defined.

(** C2 as stated fails three times: through the request router the search
    for Acme with limit 100 returns one element, not five; the executor of the
    class returns no record, not [min(limit, 5)] of them, when the limit is
    negative; and for the limit 2.5 it returns two. *)
Lemma search_is_not_always_min_limit_five :
  handleMCPRequest Samples.host (Normal Samples.acme_search)
  = createJSONResponse
      (ServiceWorker.content_envelope
         (returned (tool_result Samples.host (VStr "search_organizations")
                      (VObj [("query", VStr "Acme"); ("limit", VNum 100)]))))
      200
  /\ List.length
       (elements
          (returned (tool_result Samples.host (VStr "search_organizations")
                       (VObj [("query", VStr "Acme"); ("limit", VNum 100)]))))
     <> 5%nat
  /\ Z.of_nat
       (List.length
          (elements (returned (MCPServer.searchOrganizations Samples.host
                                 (VStr "Acme") (VNum (-1))))))
     <> Z.min (-1) 5
  /\ ToString (VReal (Fin 2) "2.5") = Normal "2.5"
  /\ List.length
       (elements (returned (MCPServer.searchOrganizations Samples.host
                              (VStr "Acme") (VReal (Fin 2) "2.5"))))
     = 2%nat.
Proof. repeat split; discriminate. Qed.

Example acme_corp_ids :
  map (field "id")
    (elements (returned (MCPServer.searchOrganizations Samples.host
                           (VStr "Acme  Corp") (VNum 3))))
  = [VStr "org-acme-corp-1"; VStr "org-acme-corp-2"; VStr "org-acme-corp-3"].
Proof. reflexivity. Qed.

Example industries_cycle :
  map (field "industry")
    (elements (returned (MCPServer.searchOrganizations Samples.host
                           (VStr "Acme") VUndefined)))
  = [ VStr "Finance"; VStr "Healthcare"; VStr "Education"; VStr "Manufacturing";
      VStr "Technology" ].
Proof. reflexivity. Qed.

(** A query that is not a string makes the first turn of the loop throw; with
    no turn to take, nothing is evaluated and nothing throws. *)
Example search_needs_a_string_only_when_it_loops :
  MCPServer.searchOrganizations Samples.host (VNum 3) (VNum 2)
  = Throw (TypeError (NotAFunction "query.toLowerCase"))
  /\ elements (returned (MCPServer.searchOrganizations Samples.host
                           (VNum 3) (VNum 0))) = [].
Proof. split; reflexivity. Qed.

(** *** get_organizations *)

(** C8, as the code has it.  [getOrganizations] returns the two fixed
    entries when called without a role (or with null); with a non-empty role
    string it returns exactly the entries whose [role] is that very string,
    compared character by character; MEMBER selects one of the two, the
    second, and a different spelling of it selects none. *)
Theorem get_organizations_filter :
  elements (MCPServer.getOrganizations VUndefined) = MCPServer.mockOrganizations
  /\ elements (MCPServer.getOrganizations VNull) = MCPServer.mockOrganizations
  /\ List.length MCPServer.mockOrganizations = 2%nat
  /\ (forall role,
        role <> "" ->
        elements (MCPServer.getOrganizations (VStr role))
        = filter (fun org => (text_of (field "role" org) =? role)%string)
            MCPServer.mockOrganizations)
  /\ elements (MCPServer.getOrganizations (VStr "MEMBER"))
     = [nth 1 MCPServer.mockOrganizations VUndefined]
  /\ field "role" (nth 1 MCPServer.mockOrganizations VUndefined) = VStr "MEMBER"
  /\ elements (MCPServer.getOrganizations (VStr "member")) = [].
Proof.
  repeat split.
  intros role Hrole. unfold MCPServer.getOrganizations.
  cbn [default_param truthy].
  apply String.eqb_neq in Hrole. rewrite Hrole. reflexivity.
Qed.

Lemma get_organizations_filter_witness :
  elements (MCPServer.getOrganizations (VStr "ADMINISTRATOR"))
  = filter (fun org => (text_of (field "role" org) =? "ADMINISTRATOR")%string)
      MCPServer.mockOrganizations.
Proof.
  apply (proj1 (proj2 (proj2 (proj2 get_organizations_filter)))).
  discriminate.
Defined.

(** C8 as stated fails for the empty role string: no entry has that role,
    yet both entries are returned. *)
Lemma empty_role_is_not_a_filter :
  filter (fun org => (text_of (field "role" org) =? "")%string)
    MCPServer.mockOrganizations = []
  /\ elements (MCPServer.getOrganizations (VStr "")) = MCPServer.mockOrganizations
  /\ List.length (elements (MCPServer.getOrganizations (VStr ""))) = 2%nat.
Proof. repeat split. Qed.

(** *** Defaults of optional arguments *)

Lemma or_else_falsy v d : truthy v = false -> or_else v d = d.
Proof. unfold or_else. now intros ->. Qed.

Lemma getOrganizations_falsy role :
  truthy role = false ->
  MCPServer.getOrganizations role = MCPServer.getOrganizations VUndefined.
Proof.
  intros H. unfold MCPServer.getOrganizations.
  replace (truthy (default_param role VNull)) with false; [reflexivity |].
  destruct role; try reflexivity; now symmetry.
Qed.

(** C10.  In [handleToolsCall] of the class, an optional member whose value
    is falsy counts as missing.  A falsy [params.arguments] (null included)
    gives the empty object, and the whole answer is that of a request without
    arguments.  In create_post a falsy [visibility] (the empty string
    included) gives PUBLIC.  In search_organizations a falsy [limit] (0
    included) gives 10, hence five records for a string query.  In
    get_organizations a falsy [role] (the empty string included) filters
    nothing: both fixed entries are returned. *)
Theorem falsy_optional_arguments_count_as_missing :
  (forall h params other a,
      Get params "arguments" = Normal a -> truthy a = false ->
      Get other "arguments" = Normal VUndefined ->
      Get other "name" = Get params "name" ->
      MCPServer.arguments_of params = Normal (VObj [])
      /\ MCPServer.handleToolsCall h params = MCPServer.handleToolsCall h other)
  /\ (forall h arguments_ visibility,
        Get arguments_ "visibility" = Normal visibility ->
        truthy visibility = false ->
        MCPServer.execute h create_post arguments_
        = MCPServer.createPost h (field "text" arguments_) (VStr "PUBLIC")
        /\ field "visibility"
             (field "data" (returned (MCPServer.execute h create_post arguments_)))
           = VStr "PUBLIC")
  /\ (forall h arguments_ limit,
        Get arguments_ "limit" = Normal limit ->
        truthy limit = false ->
        MCPServer.execute h search_organizations arguments_
        = MCPServer.searchOrganizations h (field "query" arguments_) (VNum 10)
        /\ forall q,
             field "query" arguments_ = VStr q ->
             List.length
               (elements (returned (MCPServer.execute h search_organizations arguments_)))
             = 5%nat)
  /\ (forall h arguments_ role,
        Get arguments_ "role" = Normal role ->
        truthy role = false ->
        MCPServer.execute h get_organizations arguments_
        = Normal (MCPServer.getOrganizations VUndefined)
        /\ elements (returned (MCPServer.execute h get_organizations arguments_))
           = MCPServer.mockOrganizations)
  /\ truthy VNull = false
  /\ truthy (VStr "") = false
  /\ truthy (VNum 0) = false.
Proof.
  split; [| split; [| split; [| split]]].
  - intros h params other a Ha Hfalsy Hother Hname.
    assert (E1 : MCPServer.arguments_of params = Normal (VObj [])).
    { unfold MCPServer.arguments_of. rewrite Ha. cbn [bind].
      now rewrite or_else_falsy. }
    assert (E2 : MCPServer.arguments_of other = Normal (VObj [])).
    { unfold MCPServer.arguments_of. now rewrite Hother. }
    split; [assumption |].
    unfold MCPServer.handleToolsCall. now rewrite E1, E2, Hname.
  - intros h arguments_ visibility Hv Hfalsy.
    assert (E : MCPServer.execute h create_post arguments_
                = MCPServer.createPost h (field "text" arguments_) (VStr "PUBLIC")).
    { cbn [MCPServer.execute]. rewrite (Get_any _ _ _ "text" Hv), Hv.
      cbn [bind]. now rewrite or_else_falsy. }
    split; [assumption |]. rewrite E. reflexivity.
  - intros h arguments_ limit Hl Hfalsy.
    assert (E : MCPServer.execute h search_organizations arguments_
                = MCPServer.searchOrganizations h (field "query" arguments_) (VNum 10)).
    { cbn [MCPServer.execute]. rewrite (Get_any _ _ _ "query" Hl), Hl.
      cbn [bind]. now rewrite or_else_falsy. }
    split; [assumption |].
    intros q Hq. rewrite E, Hq, searchOrganizations_string. reflexivity.
  - intros h arguments_ role Hr Hfalsy.
    assert (E : MCPServer.execute h get_organizations arguments_
                = Normal (MCPServer.getOrganizations VUndefined)).
    { cbn [MCPServer.execute]. rewrite Hr. cbn [bind].
      now rewrite getOrganizations_falsy. }
    split; [assumption |]. rewrite E. reflexivity.
  - repeat split.
Qed.

Lemma falsy_optional_arguments_count_as_missing_witness :
  MCPServer.handleToolsCall Samples.host
    (VObj [("name", VStr "get_organizations"); ("arguments", VNull)])
  = MCPServer.handleToolsCall Samples.host (VObj [("name", VStr "get_organizations")])
  /\ List.length
       (elements
          (returned (MCPServer.execute Samples.host search_organizations
                       (VObj [("query", VStr "Acme"); ("limit", VNum 0)]))))
     = 5%nat
  /\ field "visibility"
       (field "data"
          (returned (MCPServer.execute Samples.host create_post
                       (VObj [("text", VStr "hello"); ("visibility", VStr "")]))))
     = VStr "PUBLIC"
  /\ elements
       (returned (MCPServer.execute Samples.host get_organizations
                    (VObj [("role", VStr "")])))
     = MCPServer.mockOrganizations.
Proof.
  destruct falsy_optional_arguments_count_as_missing
    as (Hargs & Hvis & Hlimit & Hrole & _).
  split; [| split; [| split]].
  - apply (Hargs Samples.host
             (VObj [("name", VStr "get_organizations"); ("arguments", VNull)])
             (VObj [("name", VStr "get_organizations")]) VNull);
      reflexivity.
  - apply (proj2 (Hlimit Samples.host
                    (VObj [("query", VStr "Acme"); ("limit", VNum 0)]) (VNum 0)
                    eq_refl eq_refl) "Acme").
    reflexivity.
  - apply (Hvis Samples.host
             (VObj [("text", VStr "hello"); ("visibility", VStr "")]) (VStr ""));
      reflexivity.
  - apply (Hrole Samples.host (VObj [("role", VStr "")]) (VStr "")); reflexivity.
Defined.

(** The simplified handler defaults the same optional members by
    truthiness; it has no limit to default and no filter to apply. *)
Lemma simplified_handler_defaults h args :
  (forall visibility,
      Get args "visibility" = Normal visibility -> truthy visibility = false ->
      forall result,
        ServiceWorker.execute h create_post args = Normal result ->
        field "visibility" (field "data" result) = VStr "PUBLIC")
  /\ (forall role,
        Get args "role" = Normal role -> truthy role = false ->
        map (field "role")
          (elements (returned (ServiceWorker.execute h get_organizations args)))
        = [VStr "MEMBER"]).
Proof.
  split.
  - intros visibility Hv Hfalsy result. cbn [ServiceWorker.execute].
    rewrite (Get_any _ _ _ "text" Hv), Hv. cbn [bind].
    destruct (ToString (field "text" args)); cbn [bind]; [| discriminate].
    intros [= <-]. cbn [field lookup String.eqb Ascii.eqb Bool.eqb].
    now rewrite or_else_falsy.
  - intros role Hr Hfalsy. cbn [ServiceWorker.execute]. rewrite Hr.
    cbn [bind returned]. unfold elements.
    cbn [field lookup String.eqb Ascii.eqb Bool.eqb map].
    now rewrite or_else_falsy.
Qed.

(** ** Further properties of the service worker shell *)

(** X1.  The fetch listener hands a request to the MCP handler exactly when
    it is a POST to the path /mcp, to the preflight handler exactly when it is
    an OPTIONS to /mcp, to the static handler exactly when its method is GET
    (a GET of /mcp included), and leaves every other request alone. *)
Theorem fetch_routing pathname method :
  (on_fetch pathname method = ByMCPRequest
   <-> pathname = "/mcp" /\ method = "POST")
  /\ (on_fetch pathname method = ByCORSPreflight
      <-> pathname = "/mcp" /\ method = "OPTIONS")
  /\ (on_fetch pathname method = ByStaticRequest <-> method = "GET")
  /\ (on_fetch pathname method = NotIntercepted
      <-> method <> "GET"
          /\ ~ (pathname = "/mcp" /\ (method = "POST" \/ method = "OPTIONS"))).
Proof.
  unfold on_fetch.
  destruct (String.eqb_spec pathname "/mcp") as [Hp|Hp];
    destruct (String.eqb_spec method "POST") as [Hpost|Hpost];
    destruct (String.eqb_spec method "OPTIONS") as [Hopt|Hopt];
    destruct (String.eqb_spec method "GET") as [Hget|Hget];
    cbn [andb]; subst; try discriminate;
    repeat split; intros; try discriminate; try tauto; try congruence;
    intuition (try discriminate; try congruence).
Qed.

(** X2.  Every request the fetch listener answers has its method listed in
    the Access-Control-Allow-Methods header, and that header is the same on
    the preflight answer and on every JSON response. *)
Theorem intercepted_methods_are_allowed pathname method :
  on_fetch pathname method <> NotIntercepted ->
  exists allowed,
    header "Access-Control-Allow-Methods" getCORSHeaders = Some allowed
    /\ header "Access-Control-Allow-Methods" json_headers = Some allowed
    /\ includes allowed method = true.
Proof.
  intros H. exists "POST, GET, OPTIONS". split; [reflexivity |].
  split; [reflexivity |]. revert H. unfold on_fetch.
  destruct (String.eqb_spec method "POST") as [->|_]; [reflexivity |].
  destruct (String.eqb_spec method "OPTIONS") as [->|_]; [reflexivity |].
  destruct (String.eqb_spec method "GET") as [->|_]; [reflexivity |].
  rewrite !andb_false_r. congruence.
Qed.

Lemma intercepted_methods_are_allowed_witness :
  exists allowed,
    header "Access-Control-Allow-Methods" getCORSHeaders = Some allowed
    /\ header "Access-Control-Allow-Methods" json_headers = Some allowed
    /\ includes allowed "OPTIONS" = true.
Proof.
  apply (intercepted_methods_are_allowed "/mcp" "OPTIONS"). discriminate.
Defined.

(** *** Cache clean-up *)

Lemma caches_delete_In {A} (cacheName : string) (storage : list (string * A)) entry :
  In entry (caches_delete cacheName storage)
  <-> In entry storage /\ fst entry <> cacheName.
Proof.
  unfold caches_delete. rewrite filter_In.
  destruct (String.eqb_spec (fst entry) cacheName); cbn [negb]; intuition congruence.
Qed.

Lemma delete_others_In {A} (keys : list string) : forall (storage : list (string * A)) entry,
  In entry
    (fold_left
       (fun remaining cacheName =>
          if negb (cacheName =? CACHE_NAME)%string
          then caches_delete cacheName remaining
          else remaining) keys storage)
  <-> In entry storage /\ (fst entry = CACHE_NAME \/ ~ In (fst entry) keys).
Proof.
  induction keys as [|k keys IH]; intros storage entry; cbn [fold_left].
  - simpl. tauto.
  - rewrite IH. destruct (String.eqb_spec k CACHE_NAME) as [->|Hk]; cbn [negb].
    + simpl. destruct (string_dec (fst entry) CACHE_NAME); intuition congruence.
    + rewrite caches_delete_In. simpl.
      destruct (string_dec (fst entry) k); intuition congruence.
Qed.

(** X3.  After the activate listener has run, the cache storage holds
    exactly the entries it held under the current cache name: every other
    cache is deleted, and the current one, if present, is kept with its
    content. *)
Theorem activate_keeps_only_the_current_cache {A} (storage : list (string * A)) entry :
  In entry (activate storage)
  <-> In entry storage /\ fst entry = CACHE_NAME.
Proof.
  unfold activate. rewrite delete_others_In. unfold caches_keys.
  split.
  - intros [Hin [Hc | Hout]]; [tauto |].
    exfalso. apply Hout. now apply in_map.
  - tauto.
Qed.

(** *** Static assets *)

Section StaticProperties.

Variables Request Cache : Type.
Variable cache_match : Cache -> Request -> option HttpResponse.
Variable cache_put : Cache -> Request -> HttpResponse -> Cache.

Let handle := handleStaticRequest cache_match cache_put.

(** A request the cache can answer is answered from the cache: the network
    is not consulted and the cache is left as it was. *)
Lemma cached_asset_is_served_without_network cache request cachedResponse :
  cache_match cache request = Some cachedResponse ->
  forall fetch, handle fetch cache request = (cachedResponse, cache).
Proof.
  intros Hhit fetch. unfold handle, handleStaticRequest. now rewrite Hhit.
Qed.

(** X4.  When the cache misses and the network answers with an ok status,
    that response is returned and stored; provided the cache finds what
    was just put, the same request is from then on answered with that
    response on any network, an unreachable one included. *)
Theorem fetched_asset_is_replayed cache request fetch networkResponse :
  cache_match cache request = None ->
  fetch request = Normal networkResponse ->
  ok networkResponse = true ->
  cache_match (cache_put cache request networkResponse) request
  = Some networkResponse ->
  handle fetch cache request
  = (networkResponse, cache_put cache request networkResponse)
  /\ forall later,
       handle later (snd (handle fetch cache request)) request
       = (networkResponse, cache_put cache request networkResponse).
Proof.
  intros Hmiss Hnet Hok Hlaw.
  assert (E : handle fetch cache request
              = (networkResponse, cache_put cache request networkResponse)).
  { unfold handle, handleStaticRequest. now rewrite Hmiss, Hnet, Hok. }
  split; [exact E |]. intros later. rewrite E. cbn [snd].
  now apply cached_asset_is_served_without_network.
Qed.

(** X5.  When the cache misses, a response whose status is not ok is
    passed on without being stored, and an unreachable network gives the
    503 Service Unavailable response; in both cases the cache is left as
    it was. *)
Theorem failures_are_not_cached cache request fetch :
  cache_match cache request = None ->
  (forall networkResponse,
      fetch request = Normal networkResponse ->
      ok networkResponse = false ->
      handle fetch cache request = (networkResponse, cache))
  /\ (forall error,
        fetch request = Throw error ->
        handle fetch cache request = (service_unavailable, cache)
        /\ http_status (fst (handle fetch cache request)) = 503).
Proof.
  intros Hmiss. unfold handle, handleStaticRequest. rewrite Hmiss. split.
  - intros networkResponse Hnet Hok. now rewrite Hnet, Hok.
  - intros error Hnet. rewrite Hnet. split; reflexivity.
Qed.

(** The response a static request gives is the cached one whenever there
    is one. *)
Lemma serve_keeps cache visit request response :
  (forall c req r req0 r0,
      cache_match c req = None -> cache_match c req0 = Some r0 ->
      cache_match (cache_put c req r) req0 = Some r0) ->
  cache_match cache request = Some response ->
  cache_match (serve cache_match cache_put cache visit) request = Some response.
Proof.
  intros Hlaw Hhit. unfold serve, handleStaticRequest.
  destruct (cache_match cache (snd visit)) eqn:Hm; [exact Hhit |].
  destruct (fst visit (snd visit)) as [networkResponse | error].
  - cbn [snd]. destruct (ok networkResponse); [| exact Hhit].
    now apply Hlaw.
  - exact Hhit.
Qed.

(** X6.  The cache is never refreshed: provided a put under a missing
    request does not disturb what other requests find, a request the cache
    answers keeps the same answer after any sequence of static requests on
    any networks, and is still answered with it. *)
Theorem cached_asset_is_never_refreshed visits : forall cache request response,
  (forall c req r req0 r0,
      cache_match c req = None -> cache_match c req0 = Some r0 ->
      cache_match (cache_put c req r) req0 = Some r0) ->
  cache_match cache request = Some response ->
  cache_match (fold_left (serve cache_match cache_put) visits cache) request
  = Some response
  /\ forall fetch,
       fst (handle fetch (fold_left (serve cache_match cache_put) visits cache)
              request)
       = response.
Proof.
  induction visits as [|visit visits IH]; intros cache request response Hlaw Hhit.
  - cbn [fold_left]. split; [exact Hhit |].
    intros fetch.
    now rewrite (cached_asset_is_served_without_network _ _ _ Hhit).
  - cbn [fold_left]. apply IH; [exact Hlaw |].
    now apply serve_keeps.
Qed.

End StaticProperties.

Lemma url_put_keeps c (req : string) r req0 r0 :
  Samples.url_match c req = None -> Samples.url_match c req0 = Some r0 ->
  Samples.url_match (Samples.url_put c req r) req0 = Some r0.
Proof.
  intros Hmiss Hhit. unfold Samples.url_match, Samples.url_put. cbn [find fst].
  destruct (String.eqb_spec req req0) as [->|Hne]; [congruence | exact Hhit].
Qed.

Lemma fetched_asset_is_replayed_witness :
  handleStaticRequest Samples.url_match Samples.url_put Samples.offline
    (snd (handleStaticRequest Samples.url_match Samples.url_put Samples.online
            [] "/index.html"))
    "/index.html"
  = (Samples.page, [("/index.html", Samples.page)]).
Proof.
  apply (proj2 (fetched_asset_is_replayed string _ Samples.url_match
                  Samples.url_put [] "/index.html" Samples.online Samples.page
                  eq_refl eq_refl eq_refl eq_refl)).
Defined.

Lemma failures_are_not_cached_witness :
  handleStaticRequest Samples.url_match Samples.url_put Samples.online
    [] "/missing.css"
  = (Samples.not_found, [])
  /\ handleStaticRequest Samples.url_match Samples.url_put Samples.offline
       [] "/index.html"
     = (service_unavailable, []).
Proof.
  destruct (failures_are_not_cached string _ Samples.url_match Samples.url_put
              [] "/missing.css" Samples.online eq_refl) as [Hbad _].
  destruct (failures_are_not_cached string _ Samples.url_match Samples.url_put
              [] "/index.html" Samples.offline eq_refl) as [_ Hdown].
  split.
  - apply Hbad; reflexivity.
  - apply (Hdown (Error "Failed to fetch")). reflexivity.
Defined.

Lemma cached_asset_is_never_refreshed_witness :
  Samples.url_match
    (fold_left (serve Samples.url_match Samples.url_put)
       [ (Samples.online, "/mcpServer.js"); (Samples.offline, "/index.html");
         (Samples.online, "/index.html") ]
       [("/index.html", Samples.not_found)])
    "/index.html"
  = Some Samples.not_found.
Proof.
  apply (cached_asset_is_never_refreshed string _ Samples.url_match
           Samples.url_put
           [ (Samples.online, "/mcpServer.js"); (Samples.offline, "/index.html");
             (Samples.online, "/index.html") ]
           [("/index.html", Samples.not_found)] "/index.html" Samples.not_found).
  - apply url_put_keeps.
  - reflexivity.
Defined.

(** ** Further properties of the request router *)

Lemma Get_truthy v k : truthy v = true -> Get v k = Normal (field k v).
Proof. destruct v; try discriminate; reflexivity. Qed.

Lemma or_else_object_truthy v : truthy (or_else v (VObj [])) = true.
Proof. unfold or_else. destruct (truthy v) eqn:E; [exact E | reflexivity]. Qed.

(** Values without members always have a string form. *)
Lemma ToString_primitive v :
  (forall elems, v <> VArr elems) -> (forall props, v <> VObj props) ->
  exists s, ToString v = Normal s.
Proof.
  intros Harr Hobj. destruct v as [| |[]| | | | |]; try (eexists; reflexivity).
  - now destruct (Harr elems).
  - now destruct (Hobj props).
Qed.

(** X7.  A body that decodes to a boolean, a number, a string or an array,
    or to an object without members, has no method: it is answered with
    status 200 and the method-not-found envelope for the method [undefined],
    without an id.  A body that decodes to null is answered by the catch
    block with status 500. *)
Theorem request_without_members h requestData :
  requestData <> VNull -> requestData <> VUndefined ->
  (forall k, field k requestData = VUndefined) ->
  handleMCPRequest h (Normal requestData)
  = createJSONResponse (method_not_found "undefined") 200
  /\ handleMCPRequest h (Normal VNull)
     = createJSONResponse
         (request_error h (TypeError (CannotReadProperty VNull "method"))) 500.
Proof.
  intros Hnull Hundef Hempty. split; [| reflexivity].
  assert (G : forall k, Get requestData k = Normal VUndefined).
  { intros k. rewrite <- (Hempty k). destruct requestData; try reflexivity; congruence. }
  unfold handleMCPRequest, dispatch. cbn [bind]. rewrite !G. reflexivity.
Qed.

Lemma request_without_members_witness :
  handleMCPRequest Samples.host (Normal (VArr [VNum 1; VNum 2]))
  = createJSONResponse (method_not_found "undefined") 200.
Proof.
  apply (request_without_members Samples.host (VArr [VNum 1; VNum 2]));
    [discriminate | discriminate | reflexivity].
Defined.

(** X8.  The answer to a request object is determined by its [method],
    [params] and [id] members alone; the id in turn influences nothing but
    the id of the answer: two requests with the same method and params get
    the same status and the same members other than [id]. *)
Theorem id_influences_only_the_id h props props' :
  field "method" (VObj props) = field "method" (VObj props') ->
  field "params" (VObj props) = field "params" (VObj props') ->
  let r := handleMCPRequest h (Normal (VObj props)) in
  let r' := handleMCPRequest h (Normal (VObj props')) in
  status r = status r'
  /\ (forall k, k <> "id" -> own k (data r) = own k (data r'))
  /\ (field "id" (VObj props) = field "id" (VObj props') -> r = r').
Proof.
  intros Hm Hp. cbv zeta. rewrite !handleMCPRequest_object, Hm, Hp.
  destruct (route _ _ _) as [response|error] eqn:Hr.
  - apply route_output in Hr as (rprops & -> & _). cbn [status data createJSONResponse].
    split; [reflexivity |]. split.
    + intros k Hk. now rewrite !echo_keeps.
    + now intros ->.
  - repeat split.
Qed.

Lemma id_influences_only_the_id_witness :
  own "result"
    (data (handleMCPRequest Samples.host
             (Normal (VObj [("method", VStr "tools/list"); ("id", VNum 1)]))))
  = own "result"
      (data (handleMCPRequest Samples.host
               (Normal (VObj [("jsonrpc", VStr "1.0"); ("id", VStr "b");
                              ("method", VStr "tools/list")])))).
Proof.
  apply (id_influences_only_the_id Samples.host
           [("method", VStr "tools/list"); ("id", VNum 1)]
           [("jsonrpc", VStr "1.0"); ("id", VStr "b"); ("method", VStr "tools/list")]);
    [reflexivity | reflexivity | discriminate].
Defined.

(** X9.  A request whose method is initialize is answered with status 200
    whatever its params; the result is the one the class [MCPServer] gives to
    [handleInitialize]: protocol MCP 1.0 and every capability flag false. *)
Theorem initialize_ignores_params h requestData :
  Get requestData "method" = Normal (VStr "initialize") ->
  let r := handleMCPRequest h (Normal requestData) in
  let result := field "result" (data r) in
  status r = 200
  /\ has_field "error" (data r) = false
  /\ (forall params, result = field "result" (MCPServer.handleInitialize params))
  /\ field "protocol" (field "serverInfo" result) = VStr "MCP 1.0"
  /\ field "listChanged" (field "tools" (field "capabilities" result)) = VBool false
  /\ field "subscribe" (field "resources" (field "capabilities" result)) = VBool false
  /\ field "listChanged" (field "resources" (field "capabilities" result))
     = VBool false.
Proof.
  intros Hm. destruct (Get_string_inv _ _ _ Hm) as (props & -> & Hmethod).
  cbv zeta. rewrite handleMCPRequest_object, Hmethod.
  cbn [route strict_eq_str String.eqb Ascii.eqb Bool.eqb
       createMCPServerInstance handleInitialize data status createJSONResponse].
  rewrite has_field_own, (field_own "result"), !echo_keeps by discriminate.
  repeat split.
Qed.

Lemma initialize_ignores_params_witness :
  field "protocol" (field "serverInfo" (field "result"
    (data (handleMCPRequest Samples.host
             (Normal (VObj [("method", VStr "initialize"); ("params", VNum 7)]))))))
  = VStr "MCP 1.0".
Proof.
  apply (initialize_ignores_params Samples.host
           (VObj [("method", VStr "initialize"); ("params", VNum 7)])).
  reflexivity.
Defined.

(** X10.  A request object whose method is a string other than tools/call
    never reaches the catch block: it is answered with status 200. *)
Theorem only_tools_call_can_fail h props s :
  field "method" (VObj props) = VStr s ->
  s <> "tools/call" ->
  status (handleMCPRequest h (Normal (VObj props))) = 200.
Proof.
  intros Hm Hs. rewrite handleMCPRequest_object, Hm.
  destruct (String.eqb_spec s "initialize") as [->|H1]; [reflexivity |].
  destruct (String.eqb_spec s "tools/list") as [->|H2]; [reflexivity |].
  now rewrite route_other_method.
Qed.

Lemma only_tools_call_can_fail_witness :
  status (handleMCPRequest Samples.host
            (Normal (VObj [ ("method", VStr "tools/list");
                            ("params", Samples.unprintable) ]))) = 200.
Proof.
  apply (only_tools_call_can_fail Samples.host
           [("method", VStr "tools/list"); ("params", Samples.unprintable)]
           "tools/list"); [reflexivity | discriminate].
Defined.

Lemma sw_execute_throws h tool args :
  truthy args = true ->
  (exists error, ServiceWorker.execute h tool args = Throw error)
  <-> (tool = create_post /\ exists error, ToString (field "text" args) = Throw error)
      \/ (tool = search_organizations
          /\ exists error, ToString (field "query" args) = Throw error).
Proof.
  intros Hargs. destruct tool; cbn [ServiceWorker.execute];
    rewrite ?(Get_truthy _ _ Hargs); cbn [bind].
  - split; [intros [? [=]] | intros [[[=] _] | [[=] _]]].
  - destruct (ToString (field "text" args)) as [shown|error]; cbn [bind].
    + split; [intros [? [=]] | intros [[_ [? [=]]] | [[=] _]]].
    + split; [left | ]; eauto.
  - destruct (ToString (field "query" args)) as [shown|error]; cbn [bind].
    + split; [intros [? [=]] | intros [[[=] _] | [_ [? [=]]]]].
    + split; [right | ]; eauto.
  - split; [intros [? [=]] | intros [[[=] _] | [[=] _]]].
Qed.

(** X11.  A tools/call is answered with status 500 exactly when the
    simplified handler has to print something that has no string form: the
    [text] of create_post, the [query] of search_organizations, or the name of
    a tool that is none of the four.  When those are strings, numbers,
    booleans, null or missing, the answer has status 200. *)
Theorem tools_call_fails_only_on_unprintable h props :
  field "method" (VObj props) = VStr "tools/call" ->
  let params := or_else (field "params" (VObj props)) (VObj []) in
  let name := field "name" params in
  let args := or_else (field "arguments" params) (VObj []) in
  (status (handleMCPRequest h (Normal (VObj props))) = 500
   <-> (tool_of name = Some create_post
        /\ exists error, ToString (field "text" args) = Throw error)
       \/ (tool_of name = Some search_organizations
           /\ exists error, ToString (field "query" args) = Throw error)
       \/ (tool_of name = None /\ exists error, ToString name = Throw error))
  /\ ((exists s, ToString name = Normal s) ->
      (exists s, ToString (field "text" args) = Normal s) ->
      (exists s, ToString (field "query" args) = Normal s) ->
      status (handleMCPRequest h (Normal (VObj props))) = 200).
Proof.
  intros Hm params name args.
  assert (Hparams : truthy params = true) by apply or_else_object_truthy.
  assert (Hargs : truthy args = true) by apply or_else_object_truthy.
  assert (E : status (handleMCPRequest h (Normal (VObj props)))
              = match tool_result h name args with
                | Normal _ => 200
                | Throw _ => 500
                end).
  { rewrite handleMCPRequest_object, Hm.
    cbn [route strict_eq_str String.eqb Ascii.eqb Bool.eqb
         createMCPServerInstance handleToolsCall].
    fold params. rewrite !(Get_truthy _ _ Hparams). cbn [bind].
    fold name args. destruct (tool_result h name args); reflexivity. }
  assert (C : (exists error, tool_result h name args = Throw error)
              <-> (tool_of name = Some create_post
                   /\ exists error, ToString (field "text" args) = Throw error)
                  \/ (tool_of name = Some search_organizations
                      /\ exists error, ToString (field "query" args) = Throw error)
                  \/ (tool_of name = None /\ exists error, ToString name = Throw error)).
  { unfold tool_result. destruct (tool_of name) as [tool|].
    - rewrite (sw_execute_throws h tool args Hargs).
      split.
      + intros [[-> H] | [-> H]]; auto.
      + intros [[[= ->] H] | [[[= ->] H] | [[=] _]]]; auto.
    - destruct (ToString name) as [s|error]; cbn [bind].
      + split; [intros [? [=]] | intros [[[=] _] | [[[=] _] | [_ [? [=]]]]]].
      + split; [| eauto]. intros _. right; right. eauto. }
  split.
  - rewrite E, <- C. destruct (tool_result h name args) as [result|error].
    + split; [discriminate | intros [? [=]]].
    + split; eauto.
  - intros [s1 H1] [s2 H2] [s3 H3]. rewrite E.
    destruct (tool_result h name args) as [result|error]; [reflexivity |].
    exfalso.
    destruct (proj1 C (ex_intro _ error eq_refl))
      as [[_ [? Hx]] | [[_ [? Hx]] | [_ [? Hx]]]]; congruence.
Qed.

Lemma tools_call_fails_only_on_unprintable_witness :
  status (handleMCPRequest Samples.host (Normal Samples.unprintable_post)) = 500
  /\ status (handleMCPRequest Samples.host (Normal Samples.acme_search)) = 200.
Proof.
  split.
  - apply (proj1 (tools_call_fails_only_on_unprintable Samples.host
                    [ ("method", VStr "tools/call");
                      ("params",
                       VObj [ ("name", VStr "create_post");
                              ("arguments", VObj [ ("text", Samples.unprintable) ]) ]);
                      ("id", VNum 0) ] eq_refl)).
    left. split; [reflexivity |]. eexists; reflexivity.
  - apply (proj2 (tools_call_fails_only_on_unprintable Samples.host
                    [ ("jsonrpc", VStr "2.0");
                      ("method", VStr "tools/call");
                      ("params",
                       VObj [ ("name", VStr "search_organizations");
                              ("arguments",
                               VObj [ ("query", VStr "Acme");
                                      ("limit", VNum 100) ]) ]) ] eq_refl));
      eexists; reflexivity.
Defined.

(** ** Further properties of the class *)

(** X12.  [handleToolsCall] of the class lets an exception escape exactly
    when [params] is null or undefined, or when the tool name has no string
    form to look the registry up with; for every other call it returns an
    envelope. *)
Theorem class_handler_throws_iff h params error :
  MCPServer.handleToolsCall h params = Throw error
  <-> Get params "name" = Throw error
      \/ exists toolName,
           Get params "name" = Normal toolName /\ ToString toolName = Throw error.
Proof.
  unfold MCPServer.handleToolsCall, MCPServer.arguments_of, MCPServer.registered.
  destruct (Get params "name") as [toolName|e] eqn:Hn; cbn [bind].
  - rewrite (Get_any _ _ _ "arguments" Hn). cbn [bind].
    destruct (ToString toolName) as [key|e] eqn:Hs; cbn [bind].
    + destruct (negb _); cbn [bind];
        (split; [discriminate | intros [[=] | (? & [= <-] & Hx)]; congruence]).
    + split.
      * intros [= ->]. right. eauto.
      * intros [[=] | (? & [= <-] & Hx)]. congruence.
  - split.
    + intros [= ->]. now left.
    + intros [[= ->] | (? & [=] & _)]. reflexivity.
Qed.

Lemma class_handler_throws_iff_witness :
  MCPServer.handleToolsCall Samples.host VNull
  = Throw (TypeError (CannotReadProperty VNull "name"))
  /\ MCPServer.handleToolsCall Samples.host (VObj [("name", Samples.unprintable)])
     = Throw (TypeError CannotConvertToPrimitive).
Proof.
  split.
  - apply (proj2 (class_handler_throws_iff Samples.host VNull _)).
    left. reflexivity.
  - apply (proj2 (class_handler_throws_iff Samples.host
                    (VObj [("name", Samples.unprintable)]) _)).
    right. exists Samples.unprintable. split; reflexivity.
Defined.

(** X13.  In the class, get_profile and get_organizations cannot fail:
    whatever the arguments, the call is answered with a result envelope;
    get_profile ignores the arguments altogether, and get_organizations reads
    nothing but [role]. *)
Theorem profile_and_organizations_never_fail h params :
  let arguments_ := or_else (field "arguments" params) (VObj []) in
  (Get params "name" = Normal (VStr "get_profile") ->
   MCPServer.handleToolsCall h params
   = Normal (MCPServer.content_envelope MCPServer.getProfile))
  /\ (Get params "name" = Normal (VStr "get_organizations") ->
      MCPServer.handleToolsCall h params
      = Normal (MCPServer.content_envelope
                  (MCPServer.getOrganizations (field "role" arguments_)))).
Proof.
  cbv zeta. split; intros Hn;
    unfold MCPServer.handleToolsCall, MCPServer.arguments_of;
    rewrite Hn, (Get_any _ _ _ "arguments" Hn); cbn [bind];
    change (MCPServer.registered (VStr _)) with (@Normal bool true);
    cbn [bind negb]; unfold MCPServer.callTool.
  - reflexivity.
  - cbn [tool_of strict_eq_str String.eqb Ascii.eqb Bool.eqb MCPServer.execute].
    rewrite (Get_truthy _ _ (or_else_object_truthy _)). reflexivity.
Qed.

Lemma profile_and_organizations_never_fail_witness :
  MCPServer.handleToolsCall Samples.host
    (VObj [("name", VStr "get_profile"); ("arguments", Samples.unprintable)])
  = Normal (MCPServer.content_envelope MCPServer.getProfile)
  /\ MCPServer.handleToolsCall Samples.host
       (VObj [ ("name", VStr "get_organizations");
               ("arguments", VObj [("role", Samples.unprintable)]) ])
     = Normal (MCPServer.content_envelope
                 (MCPServer.getOrganizations Samples.unprintable)).
Proof.
  split.
  - apply (proj1 (profile_and_organizations_never_fail Samples.host
                    (VObj [ ("name", VStr "get_profile");
                            ("arguments", Samples.unprintable) ]))).
    reflexivity.
  - apply (proj2 (profile_and_organizations_never_fail Samples.host
                    (VObj [ ("name", VStr "get_organizations");
                            ("arguments", VObj [("role", Samples.unprintable)]) ]))).
    reflexivity.
Defined.

Lemma class_create_post h arguments_ :
  truthy arguments_ = true ->
  MCPServer.callTool h (VStr "create_post") arguments_
  = MCPServer.createPost h (field "text" arguments_)
      (or_else (field "visibility" arguments_) (VStr "PUBLIC")).
Proof.
  intros Hargs. unfold MCPServer.callTool.
  cbn [tool_of strict_eq_str String.eqb Ascii.eqb Bool.eqb MCPServer.execute].
  now rewrite !(Get_truthy _ _ Hargs).
Qed.

Lemma default_param_or_else v d d' :
  d <> VUndefined -> default_param (or_else v d) d' = or_else v d.
Proof.
  intros Hd. unfold or_else. destruct (truthy v) eqn:E.
  - destruct v; try discriminate; reflexivity.
  - destruct d; try reflexivity. congruence.
Qed.

(** X14.  create_post of the class validates nothing: the [text], whatever
    it is (missing, empty, not a string), is returned as [data.text], and any
    truthy [visibility] that has a string form is returned as
    [data.visibility] and printed in the message, whether or not it is one of
    the two values the schema lists; the id is [demo-post-] followed by the
    clock reading. *)
Theorem create_post_validates_nothing h arguments_ visibility shown :
  truthy arguments_ = true ->
  or_else (field "visibility" arguments_) (VStr "PUBLIC") = visibility ->
  ToString visibility = Normal shown ->
  exists result,
    MCPServer.callTool h (VStr "create_post") arguments_ = Normal result
    /\ field "status" result = VStr "success"
    /\ field "message" result
       = VStr ("Post would be created with visibility: " ++ shown)
    /\ field "text" (field "data" result) = field "text" arguments_
    /\ field "visibility" (field "data" result) = visibility
    /\ field "id" (field "data" result)
       = VStr ("demo-post-" ++ Z_to_string (Date_now h))
    /\ field "createdAt" (field "data" result) = VStr (Date_toISOString h).
Proof.
  intros Hargs Hv Hs. rewrite (class_create_post _ _ Hargs), Hv.
  unfold MCPServer.createPost.
  rewrite <- Hv, default_param_or_else, Hv, Hs by discriminate. cbn [bind].
  eexists. repeat split.
Qed.

Lemma create_post_validates_nothing_witness :
  field "visibility" (field "data"
    (returned (MCPServer.callTool Samples.host (VStr "create_post")
                 (VObj [("text", VStr ""); ("visibility", VStr "SECRET")]))))
  = VStr "SECRET".
Proof.
  destruct (create_post_validates_nothing Samples.host
              (VObj [("text", VStr ""); ("visibility", VStr "SECRET")])
              (VStr "SECRET") "SECRET" eq_refl eq_refl eq_refl)
    as (result & Hr & _ & _ & _ & Hvis & _).
  rewrite Hr. exact Hvis.
Defined.

(** X15.  create_post of the class fails exactly when the visibility it
    would print has no string form, and then with that conversion's
    exception; the text is never inspected. *)
Theorem create_post_fails_only_on_visibility h arguments_ error :
  truthy arguments_ = true ->
  (MCPServer.callTool h (VStr "create_post") arguments_ = Throw error
   <-> ToString (or_else (field "visibility" arguments_) (VStr "PUBLIC"))
       = Throw error).
Proof.
  intros Hargs. rewrite (class_create_post _ _ Hargs).
  unfold MCPServer.createPost. rewrite default_param_or_else by discriminate.
  destruct (ToString _) as [shown|e]; cbn [bind].
  - split; discriminate.
  - split; intros [= ->]; reflexivity.
Qed.

Lemma create_post_fails_only_on_visibility_witness :
  MCPServer.callTool Samples.host (VStr "create_post")
    (VObj [("text", VStr "hello"); ("visibility", Samples.unprintable)])
  = Throw (TypeError CannotConvertToPrimitive).
Proof.
  apply (proj2 (create_post_fails_only_on_visibility Samples.host
                  (VObj [("text", VStr "hello"); ("visibility", Samples.unprintable)])
                  _ eq_refl)).
  reflexivity.
Defined.

Lemma push_results_length h fuel query m : forall i mockResults results,
  MCPServer.push_results h fuel query m i mockResults = Normal results ->
  (List.length results <= List.length mockResults + fuel)%nat.
Proof.
  induction fuel as [|fuel IH]; intros i mockResults results;
    cbn [MCPServer.push_results].
  - intros [= <-]. lia.
  - destruct (le_num i m).
    + destruct (MCPServer.organization h query i) as [org|]; cbn [bind];
        [| discriminate].
      intros H. apply IH in H. rewrite length_app in H. simpl in H. lia.
    + intros [= <-]. lia.
Qed.

(** X16.  Whatever the query and the limit are, a search of the class that
    returns at all returns at most five elements, and its paging reports
    exactly their number as [total] and as [count], with [start] 0. *)
Theorem search_never_exceeds_five h query limit result :
  MCPServer.searchOrganizations h query limit = Normal result ->
  (List.length (elements result) <= 5)%nat
  /\ field "total" (field "paging" (field "data" result))
     = VNum (Z.of_nat (List.length (elements result)))
  /\ field "count" (field "paging" (field "data" result))
     = VNum (Z.of_nat (List.length (elements result)))
  /\ field "start" (field "paging" (field "data" result)) = VNum 0.
Proof.
  unfold MCPServer.searchOrganizations.
  destruct (Math_min _ _ _) as [m|]; cbn [bind]; [| discriminate].
  destruct (MCPServer.push_results h 5 query m 1 []) as [mockResults|] eqn:Hp;
    cbn [bind]; [| discriminate].
  intros [= <-]. apply push_results_length in Hp.
  unfold elements. cbn [field lookup String.eqb Ascii.eqb Bool.eqb].
  repeat split. simpl in Hp. lia.
Qed.

Lemma search_never_exceeds_five_witness :
  (List.length
     (elements (returned (MCPServer.searchOrganizations Samples.host
                            (VStr "Acme") (VStr "  40 "))))
   <= 5)%nat.
Proof.
  apply (search_never_exceeds_five Samples.host (VStr "Acme") (VStr "  40 ")).
  reflexivity.
Defined.

(** *** Identifiers of search results *)

Lemma Z_to_string_inj a b : Z_to_string a = Z_to_string b -> a = b.
Proof.
  unfold Z_to_string. intros H.
  assert (Hnil : forall z, Z.to_int z <> Decimal.Pos Decimal.Nil
                           /\ Z.to_int z <> Decimal.Neg Decimal.Nil).
  { intros [|p|p]; cbn [Z.to_int]; split; try discriminate;
      intros [= E]; now apply (Unsigned.to_uint_nonnil p). }
  apply (f_equal NilZero.int_of_string) in H.
  rewrite !NilZero.isi in H by apply Hnil.
  injection H as H. now apply DecimalZ.to_int_inj.
Qed.

Lemma append_inj_l (a b c : string) : (a ++ b = a ++ c)%string -> b = c.
Proof. induction a as [|x a IH]; simpl; [auto | intros [= H]; auto]. Qed.

Lemma count_from_lower i k x : In x (count_from i k) -> i <= x.
Proof.
  revert i; induction k as [|k IH]; intros i; simpl; [tauto |].
  intros [<- | H]; [lia |]. apply IH in H. lia.
Qed.

Lemma count_from_NoDup i k : NoDup (count_from i k).
Proof.
  revert i; induction k as [|k IH]; intros i; simpl; constructor; auto.
  intros H. apply count_from_lower in H. lia.
Qed.

(** X17.  The records a search of the class returns for a string query have
    pairwise distinct ids. *)
Theorem search_ids_are_distinct h q limit :
  NoDup (map (field "id")
           (elements (returned (MCPServer.searchOrganizations h (VStr q)
                                  (VNum limit))))).
Proof.
  rewrite searchOrganizations_string. unfold elements.
  cbn [returned field lookup String.eqb Ascii.eqb Bool.eqb].
  rewrite map_map. apply Injective_map_NoDup; [| apply count_from_NoDup].
  intros i j. unfold MCPServer.organization_record.
  cbn [field lookup String.eqb Ascii.eqb Bool.eqb].
  intros [= H]. apply append_inj_l in H.
  injection H as H. now apply Z_to_string_inj.
Qed.

(** What the loop has pushed: records of the query, at indices from the
    starting one on, fewer than the fuel. *)
Lemma push_results_In h fuel query m : forall i mockResults results e,
  MCPServer.push_results h fuel query m i mockResults = Normal results ->
  In e results ->
  In e mockResults
  \/ exists q k,
       query = VStr q /\ i <= k < i + Z.of_nat fuel
       /\ e = MCPServer.organization_record h q k.
Proof.
  induction fuel as [|fuel IH]; intros i mockResults results e;
    cbn [MCPServer.push_results].
  - intros [= <-] Hin. now left.
  - destruct (le_num i m); [| intros [= <-] Hin; now left].
    destruct query; cbn [MCPServer.organization bind]; try discriminate.
    intros Hp Hin. destruct (IH _ _ _ _ Hp Hin) as [Hacc | (q & k & Hq & Hk & He)].
    + apply in_app_or in Hacc as [Hacc | [<- | []]]; [now left |].
      right. exists s, i. repeat split; lia.
    + right. exists q, k. repeat split; try assumption; lia.
Qed.

(** Every element of a search result is the record of the query at an index
    between 1 and 5. *)
Lemma search_elements h query limit result e :
  MCPServer.searchOrganizations h query limit = Normal result ->
  In e (elements result) ->
  exists q k,
    query = VStr q /\ 1 <= k <= 5 /\ e = MCPServer.organization_record h q k.
Proof.
  unfold MCPServer.searchOrganizations.
  destruct (Math_min _ _ _) as [m|]; cbn [bind]; [| discriminate].
  destruct (MCPServer.push_results h 5 query m 1 []) as [mockResults|] eqn:Hp;
    cbn [bind]; [| discriminate].
  intros [= <-]. unfold elements.
  cbn [field lookup String.eqb Ascii.eqb Bool.eqb]. intros Hin.
  destruct (push_results_In _ _ _ _ _ _ _ _ Hp Hin) as [[] | (q & k & Hq & Hk & He)].
  exists q, k. repeat split; try assumption; lia.
Qed.

Lemma lower_not_upper c : is_upper (lower c) = false.
Proof. destruct c as [[] [] [] [] [] [] [] []]; reflexivity. Qed.

Lemma lower_ascii c : (code c <? 128)%N = true -> (code (lower c) <? 128)%N = true.
Proof.
  destruct c as [[] [] [] [] [] [] [] []]; intros H;
    try reflexivity; discriminate H.
Qed.

Lemma ascii_toLowerCase_ascii s : is_ascii s = true -> is_ascii (ascii_toLowerCase s) = true.
Proof.
  induction s as [|c s IH]; cbn [is_ascii ascii_toLowerCase]; [reflexivity |].
  intros H. apply andb_prop in H as [Hc Hs]. now rewrite lower_ascii, IH.
Qed.

(** On an ASCII query the part of the id derived from it is computed
    here. *)
Lemma ascii_slug h q :
  is_ascii q = true ->
  replace_spaces h (toLowerCase h q)
  = ascii_replace_spaces false (ascii_toLowerCase q).
Proof.
  intros Hq. unfold replace_spaces, toLowerCase.
  now rewrite Hq, ascii_toLowerCase_ascii.
Qed.

Lemma slug_chars in_run s :
  every_char (fun c => negb (is_space c) && negb (is_upper c))
    (ascii_replace_spaces in_run (ascii_toLowerCase s)) = true.
Proof.
  revert in_run; induction s as [|c s IH]; intros in_run;
    cbn [ascii_toLowerCase ascii_replace_spaces every_char]; [reflexivity |].
  destruct (is_space (lower c)) eqn:E.
  - destruct in_run; cbn [every_char]; rewrite ?IH; reflexivity.
  - cbn [every_char]. now rewrite E, lower_not_upper, IH.
Qed.

(** X18.  For an ASCII query, the part of the id of every record a search
    returns that is derived from the query holds no white space and no
    upper-case letter. *)
Theorem id_slug_has_no_space_nor_capital h q limit result e :
  is_ascii q = true ->
  MCPServer.searchOrganizations h (VStr q) limit = Normal result ->
  In e (elements result) ->
  exists slug k,
    1 <= k <= 5
    /\ field "id" e = VStr ("org-" ++ slug ++ "-" ++ Z_to_string k)
    /\ every_char (fun c => negb (is_space c) && negb (is_upper c)) slug = true.
Proof.
  intros Hq Hr Hin.
  destruct (search_elements _ _ _ _ _ Hr Hin) as (q' & k & [= <-] & Hk & ->).
  exists (ascii_replace_spaces false (ascii_toLowerCase q)), k.
  split; [exact Hk |]. split; [| apply slug_chars].
  unfold MCPServer.organization_record.
  cbn [field lookup String.eqb Ascii.eqb Bool.eqb]. now rewrite ascii_slug.
Qed.

Lemma id_slug_has_no_space_nor_capital_witness :
  exists slug k,
    1 <= k <= 5
    /\ field "id" (MCPServer.organization_record Samples.host "Acme  Corp" 2)
       = VStr ("org-" ++ slug ++ "-" ++ Z_to_string k)
    /\ every_char (fun c => negb (is_space c) && negb (is_upper c)) slug = true.
Proof.
  apply (id_slug_has_no_space_nor_capital Samples.host "Acme  Corp" (VNum 3)
           (returned (MCPServer.searchOrganizations Samples.host
                        (VStr "Acme  Corp") (VNum 3))));
    [reflexivity | reflexivity |].
  simpl. tauto.
Defined.

(** X19.  The industry and the location of every record a search returns
    are entries of the two fixed lists, never undefined: at the indices the
    loop reaches, the position [i % 5] is in range. *)
Theorem industry_and_location_in_range h query limit result e :
  MCPServer.searchOrganizations h query limit = Normal result ->
  In e (elements result) ->
  exists industry location,
    field "industry" e = VStr industry
    /\ In (VStr industry) MCPServer.industries
    /\ field "location" e = VStr location
    /\ In (VStr location) MCPServer.locations.
Proof.
  intros Hr Hin.
  destruct (search_elements _ _ _ _ _ Hr Hin) as (q & k & _ & Hk & ->).
  unfold MCPServer.organization_record.
  cbn [field lookup String.eqb Ascii.eqb Bool.eqb].
  assert (Hc : k = 1 \/ k = 2 \/ k = 3 \/ k = 4 \/ k = 5) by lia.
  destruct Hc as [-> | [-> | [-> | [-> | ->]]]];
    do 2 eexists;
    (split; [reflexivity |]); (split; [simpl; tauto |]);
    (split; [reflexivity | simpl; tauto]).
Qed.

Lemma industry_and_location_in_range_witness :
  exists industry location,
    field "industry" (MCPServer.organization_record Samples.host "Acme" 5)
    = VStr industry
    /\ In (VStr industry) MCPServer.industries
    /\ field "location" (MCPServer.organization_record Samples.host "Acme" 5)
       = VStr location
    /\ In (VStr location) MCPServer.locations.
Proof.
  apply (industry_and_location_in_range Samples.host (VStr "Acme") (VNum 100)
           (returned (MCPServer.searchOrganizations Samples.host
                        (VStr "Acme") (VNum 100))));
    [reflexivity |].
  simpl. tauto.
Defined.

(** *** get_organizations in general *)

Lemma strict_eq_true a b : strict_eq a b = true -> a = b.
Proof.
  destruct a as [| |x|x|x s|x|x|x], b as [| |y|y|y t|y|y|y]; cbn [strict_eq];
    try discriminate; try reflexivity;
    repeat match goal with
           | x : num |- _ => destruct x
           end;
    try discriminate;
    intros H;
    repeat match goal with
           | H : (_ && _)%bool = true |- _ => apply andb_prop in H as [? ?]
           | H : (_ =? _) = true |- _ => apply Z.eqb_eq in H
           | H : (_ =? _)%string = true |- _ => apply String.eqb_eq in H
           | H : Bool.eqb _ _ = true |- _ => apply Bool.eqb_prop in H
           end;
    subst; reflexivity.
Qed.

(** X20.  Whatever the role is, get_organizations of the class returns
    entries of the fixed list only; when the role is truthy each returned
    entry has exactly that role, and a truthy role that is not a string
    selects nothing. *)
Theorem get_organizations_returns_matching_entries role :
  (forall org,
      In org (elements (MCPServer.getOrganizations role)) ->
      In org MCPServer.mockOrganizations
      /\ (truthy role = true -> field "role" org = role))
  /\ (truthy role = true -> (forall s, role <> VStr s) ->
      elements (MCPServer.getOrganizations role) = []).
Proof.
  unfold MCPServer.getOrganizations, elements.
  cbn [field lookup String.eqb Ascii.eqb Bool.eqb].
  assert (Ht : truthy (default_param role VNull) = truthy role)
    by (destruct role; reflexivity).
  rewrite Ht. destruct (truthy role) eqn:E.
  - assert (Hd : default_param role VNull = role)
      by (destruct role; try reflexivity; discriminate).
    rewrite Hd. split.
    + intros org Hin. apply filter_In in Hin as [Hin Heq].
      split; [exact Hin |]. intros _. now apply strict_eq_true.
    + intros _ Hns. destruct role; try reflexivity. now destruct (Hns s).
  - split; [| discriminate]. intros org Hin. split; [exact Hin | discriminate].
Qed.

Lemma get_organizations_returns_matching_entries_witness :
  elements (MCPServer.getOrganizations (VNum 5)) = [].
Proof.
  apply (proj2 (get_organizations_returns_matching_entries (VNum 5)));
    [reflexivity | discriminate].
Defined.

(** *** The simplified executors *)

(** X21.  search_organizations of the simplified handler reads nothing but
    the query: two argument objects with the same query give the same
    outcome, whatever their limit, and a search that returns holds exactly
    one element. *)
Theorem simplified_search_ignores_limit h args args' :
  truthy args = true -> truthy args' = true ->
  field "query" args = field "query" args' ->
  ServiceWorker.execute h search_organizations args
  = ServiceWorker.execute h search_organizations args'
  /\ forall result,
       ServiceWorker.execute h search_organizations args = Normal result ->
       List.length (elements result) = 1%nat.
Proof.
  intros Ha Ha' Hq. cbn [ServiceWorker.execute].
  rewrite (Get_truthy _ _ Ha), (Get_truthy _ _ Ha'), Hq. cbn [bind].
  split; [reflexivity |].
  intros result. destruct (ToString (field "query" args')); cbn [bind];
    [| discriminate].
  intros [= <-]. reflexivity.
Qed.

Lemma simplified_search_ignores_limit_witness :
  ServiceWorker.execute Samples.host search_organizations
    (VObj [("query", VStr "Acme"); ("limit", VNum 100)])
  = ServiceWorker.execute Samples.host search_organizations
      (VObj [("limit", VNum 0); ("query", VStr "Acme")]).
Proof.
  apply (simplified_search_ignores_limit Samples.host
           (VObj [("query", VStr "Acme"); ("limit", VNum 100)])
           (VObj [("limit", VNum 0); ("query", VStr "Acme")]));
    reflexivity.
Defined.

(** X22.  get_organizations of the simplified handler does not filter: it
    always returns the one entry demo123, and a truthy role, whatever its
    value, is written into that entry as its role. *)
Theorem simplified_organizations_echo_the_role h args role :
  truthy args = true ->
  field "role" args = role ->
  truthy role = true ->
  ServiceWorker.execute h get_organizations args
  = Normal
      (VObj [ ("status", VStr "demo");
              ("data",
               VObj [ ("elements",
                       VArr [ VObj [ ("organization",
                                      VStr "urn:li:organization:demo123");
                                     ("role", role);
                                     ("state", VStr "APPROVED") ] ]) ]) ]).
Proof.
  intros Ha Hr Ht. cbn [ServiceWorker.execute].
  rewrite (Get_truthy _ _ Ha), Hr. cbn [bind]. unfold or_else. now rewrite Ht.
Qed.

Lemma simplified_organizations_echo_the_role_witness :
  map (field "role")
    (elements (returned (ServiceWorker.execute Samples.host get_organizations
                           (VObj [("role", VStr "OWNER")]))))
  = [VStr "OWNER"].
Proof.
  rewrite (simplified_organizations_echo_the_role Samples.host
             (VObj [("role", VStr "OWNER")]) (VStr "OWNER")
             eq_refl eq_refl eq_refl).
  reflexivity.
Defined.

(** *** Searching without a query *)



